(** * Mathpix lecture-notes processor: a shallow embedding of [src/main.py]

    The script uploads a PDF to the Mathpix service, polls the job status,
    downloads the converted formats into a time-stamped directory and
    estimates a cost from the page count.  This development embeds the
    class [MathpixProcessor] and the constants it reads, and proves the
    properties the specification states about them.

    Modelling decisions, all local to this file:
    - Python [int] is [Z]; Python [float] is IEEE-754 binary64, taken from
      the Standard Library's executable specification [SpecFloat]
      (precision 53, exponent bound 1024), so every amount below is the
      very double the interpreter would compute.
    - A raised exception is a value of [exn]; a call returns a [result].
    - The outside world (HTTP service, wall clock, filesystem, console) is
      an explicit state, [World], threaded through every method.  Every
      request is answered; the filesystem is a set of directories and a map
      from paths to file contents, where a missing file or a missing
      directory raises as it does in Python.  Other faults of the operating
      system or of the network (permissions, connection errors, a file
      where a directory is expected) are outside the model.
    - The progress bar of [tqdm] is the events of creating, moving and
      closing it.  The library is not part of the repository: whether
      drawing the bar at a given count returns or raises is a parameter of
      the polling loop.  (Drawing compares the count with the total, so
      [tqdm] raises [TypeError] for a count that is not a number.)
    - [process_lecture_notes] and the [__main__] block follow the processor,
      with what they print kept as data rather than text and PyPDF2 taken as
      a parameter; the parsing of the command line and the signal handler,
      which the script never installs, are not embedded. *)

From Stdlib Require Import ZArith Ascii Floats.SpecFloat.
From stdpp Require Import gmap strings list.

(** ** Python floats *)

Module PyFloat.

Local Open Scope Z_scope.

Definition prec : Z := 53.
Definition emax : Z := 1024.

Definition float := spec_float.

(** The double nearest to the integer [n] (ties to even); an infinity
    when [n] is beyond the range of binary64. *)
Definition of_int (n : Z) : float := binary_normalize prec emax n 0 false.

Definition mul (x y : float) : float := SFmul prec emax x y.
Definition ltb (x y : float) : bool := SFltb x y.
Definition eqb (x y : float) : bool := SFeqb x y.

(** A decimal literal [digits]e[-scale] of the source text, such as
    [0.025] = 25e-3.  Python reads it as the double nearest to the decimal
    value; a correctly rounded division of two exactly representable
    integers is that same double. *)
Definition literal (digits : Z) (scale : Z) : float :=
  SFdiv prec emax (of_int digits) (of_int (10 ^ scale)).

Definition zero : float := S754_zero false.

Definition is_finite (x : float) : bool :=
  match x with
  | S754_zero _ | S754_finite _ _ _ => true
  | _ => false
  end.

End PyFloat.

(** ** Exceptions and results *)

Inductive exn : Type :=
  | Exception (msg : string)
  | EnvironmentError (msg : string)
  | TimeoutError (msg : string)
  | OverflowError (msg : string)
  | FileNotFoundError (path : string)
  | FileExistsError (path : string)
  | KeyError (key : string)
  | TypeError (msg : string)
  | ValueError (msg : string)
  | JSONDecodeError.

Inductive result (A : Type) : Type :=
  | Ok (a : A)
  | Raise (e : exn).

Arguments Ok {A} a.
Arguments Raise {A} e.

Definition result_bind {A B : Type} (r : result A) (k : A -> result B) : result B :=
  match r with
  | Ok a => k a
  | Raise e => Raise e
  end.

(** ** Arithmetic of [int * float] *)

(** [PyLong_AsDouble]: the conversion Python applies to the [int] operand of
    [int * float].  It rounds correctly and raises [OverflowError] where the
    rounded value is not a finite double. *)
Definition PyLong_AsDouble (n : Z) : result PyFloat.float :=
  match PyFloat.of_int n with
  | S754_infinity _ => Raise (OverflowError "int too large to convert to float")
  | x => Ok x
  end.

(** The Python expression [n * y] for an [int] n and a [float] y. *)
Definition int_mul_float (n : Z) (y : PyFloat.float) : result PyFloat.float :=
  result_bind (PyLong_AsDouble n) (fun x => Ok (PyFloat.mul x y)).

(** The literals [0.025], [0.01], [1000.0] and [400.01]. *)
Definition lit_0_025 : PyFloat.float := PyFloat.literal 25 3.
Definition lit_0_01 : PyFloat.float := PyFloat.literal 1 2.
Definition lit_1000_0 : PyFloat.float := PyFloat.literal 10000 1.
Definition lit_400_01 : PyFloat.float := PyFloat.literal 40001 2.

(** [MathpixProcessor.calculate_cost]; the method does not read [self]. *)
Definition calculate_cost (num_pages : Z) : result PyFloat.float :=
  if (num_pages <=? 40000)%Z
  then int_mul_float num_pages lit_0_025
  else int_mul_float num_pages lit_0_01.

(** A returned amount that is a finite double below zero. *)
Definition negative_amount (r : result PyFloat.float) : Prop :=
  exists x, r = Ok x /\ PyFloat.is_finite x = true /\ PyFloat.ltb x PyFloat.zero = true.

(** ** Error kinds of the specification

    The specification names error kinds; the script raises Python
    exceptions.  [spec_error_kind] records which exception of the script
    stands for which kind: the only exception about credentials is the
    [EnvironmentError] of the constructor, a failed upload and a failed job
    are plain [Exception]s told apart by their message, and the timeout is
    Python's own [TimeoutError]. *)

Inductive ErrorKind : Type :=
  | AuthenticationErrorKind
  | UploadErrorKind
  | ProcessingErrorKind
  | TimeoutErrorKind.

Fixpoint starts_with (start s : string) : bool :=
  match start with
  | EmptyString => true
  | String a start =>
      match s with
      | EmptyString => false
      | String b s => Ascii.eqb a b && starts_with start s
      end
  end.

Definition spec_error_kind (e : exn) : option ErrorKind :=
  match e with
  | EnvironmentError _ => Some AuthenticationErrorKind
  | Exception msg =>
      if starts_with "PDF processing failed: " msg then Some UploadErrorKind
      else if starts_with "Processing error: " msg then Some ProcessingErrorKind
      else None
  | TimeoutError _ => Some TimeoutErrorKind
  | _ => None
  end.

(** ** Configuration *)

(** Decoded JSON documents.  A [JObj] lists the items of a Python [dict]. *)
#[warnings="-register-all"]
Inductive json : Type :=
  | JNull
  | JBool (b : bool)
  | JInt (n : Z)
  | JFloat (x : PyFloat.float)
  | JStr (s : string)
  | JArr (items : list json)
  | JObj (fields : list (string * json)).

Definition INPUT_CONFIG : list (string * string) :=
  [("pdf_path", ""); ("output_dir", "processed_notes")].

Definition PROCESSING_OPTIONS : json :=
  JObj [("conversion_formats",
          JObj [("md", JBool true); ("tex.zip", JBool true); ("html", JBool true)]);
        ("math_inline_delimiters", JArr [JStr "$"; JStr "$"]);
        ("math_display_delimiters", JArr [JStr "$$"; JStr "$$"]);
        ("rm_spaces", JBool true);
        ("enable_tables_fallback", JBool true);
        ("include_equation_tags", JBool true);
        ("numbers_default_to_math", JBool true)].

Definition API_BASE_URL : string := "https://api.mathpix.com/v3".

Module API_ENDPOINTS.
Definition pdf : string := API_BASE_URL +:+ "/pdf".
Definition status (pdf_id : string) : string := API_BASE_URL +:+ "/pdf/" +:+ pdf_id.
Definition download (pdf_id fmt : string) : string :=
  API_BASE_URL +:+ "/pdf/" +:+ pdf_id +:+ "." +:+ fmt.
End API_ENDPOINTS.

(** A [dict] that is iterated is kept as the list of its items, in
    insertion order. *)
Definition OUTPUT_FORMATS : list (string * string) :=
  [("mmd", "Mathpix Markdown");
   ("tex.zip", "LaTeX with images");
   ("html", "HTML rendering")].

Definition POLLING_INTERVAL : Z := 2.
Definition TIMEOUT : Z := 600.

(** ** Dictionaries and documents *)

Fixpoint dict_lookup {V : Type} (key : string) (items : list (string * V)) : option V :=
  match items with
  | [] => None
  | (k, v) :: rest => if String.eqb k key then Some v else dict_lookup key rest
  end.

Definition dict_keys {V : Type} (items : list (string * V)) : list string := map fst items.

(** [doc[key]] *)
Definition subscript (doc : json) (key : string) : result json :=
  match doc with
  | JObj fields =>
      match dict_lookup key fields with
      | Some v => Ok v
      | None => Raise (KeyError key)
      end
  | _ => Raise (TypeError "indices must be integers")
  end.

(** [doc.get(key, default)] on a document already known to be a [dict]. *)
Definition dict_get (doc : json) (key : string) (default : json) : json :=
  match doc with
  | JObj fields => match dict_lookup key fields with Some v => v | None => default end
  | _ => default
  end.

(** [value == 'text'] *)
Definition eq_str (value : json) (s : string) : bool :=
  match value with
  | JStr t => String.eqb t s
  | _ => false
  end.

(** ** HTTP *)

Inductive Method : Type := GET | POST.

Record Request : Type := {
  req_method : Method;
  req_url : string;
  req_headers : list (string * string);
  req_files : list (string * string);
  req_data : list (string * json)
}.

(** What the script reads from a [requests.Response]: the status code, the
    body ([text], and the same bytes as [content]) and the document
    [json()] decodes from it, if it decodes. *)
Record Response : Type := {
  status_code : Z;
  text : string;
  json_body : option json
}.

Definition content (r : Response) : string := text r.

(** [response.json()] *)
Definition Response_json (r : Response) : result json :=
  match json_body r with
  | Some doc => Ok doc
  | None => Raise JSONDecodeError
  end.

(** The service and the pace of the world.  [serve s now req] is the next
    state of the service, its answer and the microseconds the call took;
    [oversleep s now] is how long a [sleep] overshoots.  Both durations are
    natural numbers: the clock never runs backwards. *)
Class Service (S : Type) : Type := {
  serve : S -> Z -> Request -> S * Response * N;
  oversleep : S -> Z -> N
}.

(** ** Paths *)

(** A [Path] is the list of its components; [p / name] appends one
    component (the names this script joins contain no separator). *)
Definition Path : Type := list string.

Definition joinpath (p : Path) (name : string) : Path := p ++ [name].

Definition parent (p : Path) : Path := removelast p.

(** The path itself and every directory above it. *)
Definition lineage (p : Path) : list Path := map (fun n => take n p) (seq 1 (length p)).

Definition path_str (p : Path) : string := String.concat "/" p.

Fixpoint split_path (s : string) (current : string) : Path :=
  match s with
  | EmptyString => if String.eqb current "" then [] else [current]
  | String c rest =>
      if Ascii.eqb c "/"%char
      then (if String.eqb current "" then [] else [current]) ++ split_path rest ""
      else split_path rest (current +:+ String c EmptyString)
  end.

(** The components of a path written as text. *)
Definition path_parts (s : string) : Path := split_path s "".

(** ** Dates *)

Module datetime.

Local Open Scope Z_scope.

(** A naive [datetime] is kept as the microseconds since
    0001-01-01 00:00:00, which makes subtraction what it is in Python: the
    exact distance on the proleptic Gregorian calendar. *)
Definition t : Type := Z.

Definition US_PER_SECOND : Z := 1000000.
Definition US_PER_DAY : Z := 86400 * US_PER_SECOND.

(** [(a - b).total_seconds() > seconds] for an integer number of seconds.
    [total_seconds] divides the microseconds by 10^6 with correct
    rounding; 10^-6 is far above the spacing of doubles near any such
    count, so the comparison is the one on the exact microseconds. *)
Definition elapsed_exceeds (a b : t) (seconds : Z) : bool :=
  seconds * US_PER_SECOND <? a - b.

Definition _DI400Y : Z := 146097.
Definition _DI100Y : Z := 36524.
Definition _DI4Y : Z := 1461.

Definition _DAYS_IN_MONTH (month : Z) : Z :=
  nth (Z.to_nat month) [-1; 31; 28; 31; 30; 31; 30; 31; 31; 30; 31; 30; 31] 0.

Definition _DAYS_BEFORE_MONTH (month : Z) : Z :=
  nth (Z.to_nat month) [-1; 0; 31; 59; 90; 120; 151; 181; 212; 243; 273; 304; 334] 0.

(** Ordinal of a day (0001-01-01 is day 1) to year, month and day. *)
Definition _ord2ymd (ordinal : Z) : Z * Z * Z :=
  let n := ordinal - 1 in
  let n400 := n / _DI400Y in
  let n := n mod _DI400Y in
  let year := n400 * 400 + 1 in
  let n100 := n / _DI100Y in
  let n := n mod _DI100Y in
  let n4 := n / _DI4Y in
  let n := n mod _DI4Y in
  let n1 := n / 365 in
  let n := n mod 365 in
  let year := year + n100 * 100 + n4 * 4 + n1 in
  if (n1 =? 4) || (n100 =? 4) then (year - 1, 12, 31)
  else
    let leapyear := (n1 =? 3) && (negb (n4 =? 24) || (n100 =? 3)) in
    let month := Z.shiftr (n + 50) 5 in
    let preceding :=
      _DAYS_BEFORE_MONTH month + (if (2 <? month) && leapyear then 1 else 0) in
    if n <? preceding
    then
      let month := month - 1 in
      let preceding :=
        preceding - (_DAYS_IN_MONTH month + (if (month =? 2) && leapyear then 1 else 0)) in
      (year, month, n - preceding + 1)
    else (year, month, n - preceding + 1).

Definition digit (d : Z) : string :=
  String (Ascii.ascii_of_nat (48 + Z.to_nat (d mod 10))) EmptyString.

Definition two_digits (n : Z) : string := digit (n / 10) +:+ digit n.

Definition four_digits (n : Z) : string := two_digits (n / 100) +:+ two_digits n.

(** [strftime('%Y%m%d_%H%M%S')], for the years 1000 to 9999. *)
Definition strftime_Ymd_HMS (d : t) : string :=
  let '(year, month, day) := _ord2ymd (d / US_PER_DAY + 1) in
  let s := (d mod US_PER_DAY) / US_PER_SECOND in
  four_digits year +:+ two_digits month +:+ two_digits day +:+ "_" +:+
  two_digits (s / 3600) +:+ two_digits (s / 60 mod 60) +:+ two_digits (s mod 60).

(** The instant [year]-[month]-[day] [h]:[m]:[s].[us] in 2001..2099,
    counted from the ordinal of 2001-01-01. *)
Definition at_2000s (year month day h m s us : Z) : t :=
  let y := year - 2001 in
  let leap := if (year mod 4 =? 0) && (2 <? month) then 1 else 0 in
  let ordinal := 730486 + y * 365 + y / 4 + _DAYS_BEFORE_MONTH month + leap + (day - 1) in
  ((ordinal - 1) * 86400 + h * 3600 + m * 60 + s) * US_PER_SECOND + us.

End datetime.

(** ** The world *)

Inductive PbarAction : Type :=
  | PbarOpen (total : Z) (desc unit_ : string)
  | PbarSet (n : json)
  | PbarClose.

(** What an observer of a run can see, oldest first. *)
Inductive Event : Type :=
  | EvRequest (req : Request) (resp : Response)
  | EvSleep (seconds : Z)
  | EvPbar (action : PbarAction).

(** What drawing the progress bar may raise: the errors of formatting a
    count that is not a number or not one that can be shown. *)
Inductive DrawError : Type :=
  | DrawTypeError (msg : string)
  | DrawValueError (msg : string)
  | DrawOverflowError (msg : string).

Definition draw_exn (err : DrawError) : exn :=
  match err with
  | DrawTypeError msg => TypeError msg
  | DrawValueError msg => ValueError msg
  | DrawOverflowError msg => OverflowError msg
  end.

Definition is_request (ev : Event) : bool :=
  match ev with EvRequest _ _ => true | _ => false end.

Definition is_sleep (ev : Event) : bool :=
  match ev with EvSleep _ => true | _ => false end.

Record World (Svc : Type) : Type := {
  svc : Svc;
  clock : datetime.t;
  files : gmap Path string;
  dirs : gset Path;
  log : list Event
}.

Arguments svc {Svc} w.
Arguments clock {Svc} w.
Arguments files {Svc} w.
Arguments dirs {Svc} w.
Arguments log {Svc} w.

Record MathpixProcessor : Type := {
  app_id : string;
  app_key : string;
  headers : list (string * string)
}.

(** [not value] for what [os.getenv] returns: unset or empty. *)
Definition not_str (value : option string) : bool :=
  match value with
  | Some (String _ _) => false
  | _ => true
  end.

(** [MathpixProcessor.__init__], given the environment as it is after
    [load_dotenv()]. *)
Definition __init__ (environ : gmap string string) : result MathpixProcessor :=
  let app_id := environ !! "MATHPIX_APP_ID" in
  let app_key := environ !! "MATHPIX_APP_KEY" in
  if not_str app_id || not_str app_key
  then Raise (EnvironmentError
    "Missing Mathpix credentials. Please set MATHPIX_APP_ID and MATHPIX_APP_KEY in .env file")
  else
    let app_id := default "" app_id in
    let app_key := default "" app_key in
    Ok {| app_id := app_id;
          app_key := app_key;
          headers := [("app_id", app_id); ("app_key", app_key);
                      ("Content-Type", "application/json")] |}.

Section Processor.

Context {Svc : Type} `{!Service Svc}.

(** Python's [str()] of a decoded document, as an f-string prints it; its
    text is not modelled. *)
Variable py_str : json -> string.

(** [pbar.n = n; pbar.refresh()]: the bar is drawn at count [n], or
    drawing it raises. *)
Variable pbar_refresh : json -> option DrawError.

(** The monad of the methods: a world in, a result and a world out. *)
Definition M (A : Type) : Type := World Svc -> result A * World Svc.

Definition datetime_now (w : World Svc) : datetime.t := clock w.

Definition requests_send (req : Request) (w : World Svc) : Response * World Svc :=
  let '(s, resp, took) := serve (svc w) (clock w) req in
  (resp,
   {| svc := s;
      clock := (clock w + Z.of_N took)%Z;
      files := files w;
      dirs := dirs w;
      log := log w ++ [EvRequest req resp] |}).

Definition get_request (url : string) (hdrs : list (string * string)) : Request :=
  {| req_method := GET; req_url := url; req_headers := hdrs;
     req_files := []; req_data := [] |}.

Definition requests_get (url : string) (hdrs : list (string * string))
    (w : World Svc) : Response * World Svc :=
  requests_send (get_request url hdrs) w.

Definition requests_post (url : string) (hdrs : list (string * string))
    (fls : list (string * string)) (data : list (string * json))
    (w : World Svc) : Response * World Svc :=
  requests_send
    {| req_method := POST; req_url := url; req_headers := hdrs;
       req_files := fls; req_data := data |} w.

Definition sleep (seconds : Z) (w : World Svc) : World Svc :=
  {| svc := svc w;
     clock := (clock w + seconds * datetime.US_PER_SECOND
               + Z.of_N (oversleep (svc w) (clock w)))%Z;
     files := files w;
     dirs := dirs w;
     log := log w ++ [EvSleep seconds] |}.

Definition pbar_do (action : PbarAction) (w : World Svc) : World Svc :=
  {| svc := svc w; clock := clock w; files := files w; dirs := dirs w;
     log := log w ++ [EvPbar action] |}.

(** [open(path, 'rb')] and reading the whole file. *)
Definition open_rb (path : string) (w : World Svc) : result string :=
  match files w !! path_parts path with
  | Some bytes => Ok bytes
  | None => Raise (FileNotFoundError path)
  end.

(** [with open(path, 'wb') as f: f.write(bytes)]: the directory has to be
    there; an existing file is replaced. *)
Definition open_wb_write (path : Path) (bytes : string) (w : World Svc)
    : result unit * World Svc :=
  if bool_decide (parent path = [] \/ parent path ∈ dirs w)
  then (Ok tt,
        {| svc := svc w; clock := clock w;
           files := <[path := bytes]> (files w);
           dirs := dirs w; log := log w |})
  else (Raise (FileNotFoundError (path_str path)), w).

(** [path.mkdir(parents=..., exist_ok=...)] *)
Definition mkdir (path : Path) (parents exist_ok : bool) (w : World Svc)
    : result unit * World Svc :=
  if bool_decide (path ∈ dirs w)
  then (if exist_ok then (Ok tt, w) else (Raise (FileExistsError (path_str path)), w))
  else if parents || bool_decide (parent path = [] \/ parent path ∈ dirs w)
  then (Ok tt,
        {| svc := svc w; clock := clock w; files := files w;
           dirs := dirs w ∪ list_to_set (lineage path);
           log := log w |})
  else (Raise (FileNotFoundError (path_str path)), w).

(** *** [process_pdf]

    The options travel as the document [PROCESSING_OPTIONS]; the text
    [json.dumps] makes of it is not modelled. *)

Definition process_pdf (self : MathpixProcessor) (pdf_path : string) : M json :=
  fun w =>
  match open_rb pdf_path w with
  | Raise e => (Raise e, w)
  | Ok file =>
      let fls := [("file", file)] in
      let data := [("options_json", PROCESSING_OPTIONS)] in
      let '(response, w) :=
        requests_post API_ENDPOINTS.pdf
          (filter (fun kv => kv.1 ≠ "Content-Type") (headers self))
          fls data w in
      if bool_decide (status_code response ≠ 200%Z)
      then (Raise (Exception ("PDF processing failed: " +:+ text response)), w)
      else (result_bind (Response_json response) (fun doc => subscript doc "pdf_id"), w)
  end.

(** *** [wait_for_processing]

    The [while True] loop, one iteration per unit of [fuel]; [None] when
    the fuel runs out before the loop leaves.  [pbar] tells whether the
    progress bar has been created.  A bar that cannot be drawn raises out
    of the loop, past [pbar.close()]. *)
Fixpoint wait_loop (fuel : nat) (self : MathpixProcessor) (pdf_id : string)
    (start_time : datetime.t) (pbar : bool) (w : World Svc)
    : option (result unit * World Svc) :=
  match fuel with
  | O => None
  | S fuel =>
      if datetime.elapsed_exceeds (datetime_now w) start_time TIMEOUT
      then Some (Raise (TimeoutError "PDF processing took too long"), w)
      else
        let '(response, w) := requests_get (API_ENDPOINTS.status pdf_id) (headers self) w in
        match Response_json response with
        | Raise e => Some (Raise e, w)
        | Ok status =>
            match subscript status "status" with
            | Raise e => Some (Raise e, w)
            | Ok st =>
                if eq_str st "completed"
                then Some (Ok tt, if pbar then pbar_do PbarClose w else w)
                else if eq_str st "error"
                then Some (Raise (Exception ("Processing error: " +:+ py_str status)),
                           if pbar then pbar_do PbarClose w else w)
                else
                  let progress := dict_get status "percent_done" (JInt 0) in
                  let pages_done := dict_get status "num_pages_completed" (JInt 0) in
                  let total_pages := dict_get status "num_pages" (JInt 0) in
                  let w := if pbar then w
                           else pbar_do (PbarOpen 100 "Processing PDF" "%") w in
                  match pbar_refresh progress with
                  | Some err => Some (Raise (draw_exn err), w)
                  | None =>
                      let w := pbar_do (PbarSet progress) w in
                      let w := sleep POLLING_INTERVAL w in
                      wait_loop fuel self pdf_id start_time true w
                  end
            end
        end
  end.

Definition wait_for_processing (fuel : nat) (self : MathpixProcessor) (pdf_id : string)
    (w : World Svc) : option (result unit * World Svc) :=
  let start_time := datetime_now w in
  wait_loop fuel self pdf_id start_time false w.

(** *** [download_results] *)

(** The [for fmt in ...] loop over the keys still to visit. *)
Fixpoint download_loop (self : MathpixProcessor) (pdf_id : string) (output_dir : Path)
    (timestamp : string) (formats : list string) (outputs : gmap string Path)
    (w : World Svc) : result (gmap string Path) * World Svc :=
  match formats with
  | [] => (Ok outputs, w)
  | fmt :: formats =>
      let '(response, w) :=
        requests_get (API_ENDPOINTS.download pdf_id fmt) (headers self) w in
      if bool_decide (status_code response = 200%Z)
      then
        let output_path := joinpath output_dir ("notes_" +:+ timestamp +:+ "." +:+ fmt) in
        match open_wb_write output_path (content response) w with
        | (Raise e, w) => (Raise e, w)
        | (Ok _, w) =>
            download_loop self pdf_id output_dir timestamp formats
              (<[fmt := output_path]> outputs) w
        end
      else download_loop self pdf_id output_dir timestamp formats outputs w
  end.

(** The body of [download_results] over the table it iterates. *)
Definition download_results_over (table : list (string * string))
    (self : MathpixProcessor) (pdf_id : string) (output_dir : Path)
    : M (gmap string Path) :=
  fun w =>
  let timestamp := datetime.strftime_Ymd_HMS (datetime_now w) in
  let output_dir := joinpath output_dir timestamp in
  match mkdir output_dir true true w with
  | (Raise e, w) => (Raise e, w)
  | (Ok _, w) => download_loop self pdf_id output_dir timestamp (dict_keys table) ∅ w
  end.

Definition download_results : MathpixProcessor -> string -> Path -> M (gmap string Path) :=
  download_results_over OUTPUT_FORMATS.

End Processor.


(** ** Vocabulary of the statements *)

(** The request [process_pdf] posts for a PDF whose bytes are [file]. *)
Definition upload_request (self : MathpixProcessor) (file : string) : Request :=
  {| req_method := POST;
     req_url := API_ENDPOINTS.pdf;
     req_headers := filter (fun kv => kv.1 ≠ "Content-Type") (headers self);
     req_files := [("file", file)];
     req_data := [("options_json", PROCESSING_OPTIONS)] |}.

(** The request one poll of [wait_for_processing] sends. *)
Definition status_request (self : MathpixProcessor) (pdf_id : string) : Request :=
  get_request (API_ENDPOINTS.status pdf_id) (headers self).






(** What the service answers to the download requests for [formats], asked
    one after the other from the state [s] of the service at time [now]. *)
Fixpoint served_answers {Svc : Type} `{!Service Svc}
    (self : MathpixProcessor) (pdf_id : string) (formats : list string)
    (s : Svc) (now : datetime.t) : list Response :=
  match formats with
  | [] => []
  | fmt :: formats =>
      let '(s', resp, took) :=
        serve s now (get_request (API_ENDPOINTS.download pdf_id fmt) (headers self)) in
      resp :: served_answers self pdf_id formats s' (now + Z.of_N took)%Z
  end.

(** The file [download_results] writes for [fmt] under [output_dir] at
    [timestamp]. *)
Definition output_file (output_dir : Path) (timestamp fmt : string) : Path :=
  joinpath (joinpath output_dir timestamp) ("notes_" +:+ timestamp +:+ "." +:+ fmt).

(** The requests a run of [download_results] sends, with their answers. *)
Definition download_events (self : MathpixProcessor) (pdf_id : string)
    (formats : list string) (answers : list Response) : list Event :=
  zip_with (fun fmt r => EvRequest (get_request (API_ENDPOINTS.download pdf_id fmt) (headers self)) r)
    formats answers.

(** How many requests, and how many sleeps, a stretch of the log holds. *)
Definition count_requests (events : list Event) : nat :=
  length (List.filter is_request events).

Definition count_sleeps (events : list Event) : nat :=
  length (List.filter is_sleep events).

(** ** Worlds to run the methods in *)

Module Mock.

(** A service without memory: the answer depends on the request alone and
    every call takes [took] microseconds. *)
Definition fixed (answer : Request -> Response) (took : N) : Service unit :=
  {| serve := fun _ _ req => (tt, answer req, took);
     oversleep := fun _ _ => 0%N |}.

(** A service that counts the requests it has answered: the first three
    downloads carry one body, the later ones another. *)
Definition counting (took : N) : Service nat :=
  {| serve := fun n _ _ =>
       (S n,
        {| status_code := 200;
           text := if (n <? 3)%nat then "first run" else "second run";
           json_body := None |},
        took);
     oversleep := fun _ _ => 0%N |}.

Definition environ : gmap string string :=
  {[ "MATHPIX_APP_ID" := "demo_id"; "MATHPIX_APP_KEY" := "demo_key" ]}.

Definition processor : MathpixProcessor :=
  {| app_id := "demo_id";
     app_key := "demo_key";
     headers := [("app_id", "demo_id"); ("app_key", "demo_key");
                 ("Content-Type", "application/json")] |}.

Definition noon : datetime.t := datetime.at_2000s 2024 1 1 12 0 0 0.

Definition world {Svc : Type} (s : Svc) (fls : gmap Path string) : World Svc :=
  {| svc := s; clock := noon; files := fls; dirs := ∅; log := [] |}.

Definition status_doc (st : string) (percent : Z) : json :=
  JObj [("status", JStr st); ("percent_done", JInt percent)].

Definition status_reply (st : string) (percent : Z) : Response :=
  {| status_code := 200; text := st; json_body := Some (status_doc st percent) |}.

(** Every poll finds the job at the same status. *)
Definition stuck_at (st : string) (percent : Z) : Service unit :=
  fixed (fun _ => status_reply st percent) 0.

(** Every poll finds the job running, with a progress that is [null]. *)
Definition unreported : Service unit :=
  fixed (fun _ => {| status_code := 200; text := "processing";
                     json_body := Some (JObj [("status", JStr "processing");
                                              ("percent_done", JNull)]) |}) 0.

(** The archive is missing; the other formats download. *)
Definition without_archive : Service unit :=
  fixed (fun req =>
           if String.eqb (req_url req) (API_ENDPOINTS.download "job" "tex.zip")
           then {| status_code := 404; text := "not found"; json_body := None |}
           else {| status_code := 200; text := "converted"; json_body := None |}) 0.

(** The service turns the credentials down. *)
Definition rejecting : Service unit :=
  fixed (fun _ => {| status_code := 401; text := "Invalid credentials";
                     json_body := Some (JObj [("error", JStr "Invalid credentials")]) |}) 0.

(** The service accepts the upload and names the job. *)
Definition accepting : Service unit :=
  fixed (fun _ => {| status_code := 200; text := "accepted";
                     json_body := Some (JObj [("pdf_id", JStr "job")]) |}) 0.

(** [type(v).__name__] of a decoded document. *)
Definition type_name (v : json) : string :=
  match v with
  | JNull => "NoneType"
  | JBool _ => "bool"
  | JInt _ => "int"
  | JFloat _ => "float"
  | JStr _ => "str"
  | JArr _ => "list"
  | JObj _ => "dict"
  end.

Definition is_number (v : json) : bool :=
  match v with
  | JBool _ | JInt _ | JFloat _ => true
  | _ => false
  end.

(** A progress bar that draws every number and, as [tqdm] does where it
    evaluates [n >= total + 0.5], raises [TypeError] for any other count. *)
Definition tqdm_refresh (n : json) : option DrawError :=
  if is_number n then None
  else Some (DrawTypeError ("'>=' not supported between instances of '"
                            +:+ type_name n +:+ "' and 'float'")).

Definition str_of (doc : json) : string :=
  match doc with
  | JObj (("status", JStr st) :: _) => "status " +:+ st
  | _ => "document"
  end.

(** Two runs of [download_results] into the same directory, the second
    started in the world the first one left, each call taking [took]
    microseconds per request. *)
Definition first_run (took : N) : result (gmap string Path) * World nat :=
  download_results (Service0 := counting took) processor "job" ["processed_notes"]
    (world 0%nat ∅).

Definition second_run (took : N) : result (gmap string Path) * World nat :=
  download_results (Service0 := counting took) processor "job" ["processed_notes"]
    (first_run took).2.

Definition bundle_of {Svc : Type} (run : result (gmap string Path) * World Svc)
    : gmap string Path :=
  match run.1 with
  | Ok bundle => bundle
  | Raise _ => ∅
  end.

(** A world that holds the PDF to upload. *)
Definition with_pdf : World unit := world tt {[ ["notes.pdf"] := "%PDF-1.7" ]}.

End Mock.


(** ** Further vocabulary *)

(** [-x] on a returned amount. *)
Definition negated (r : result PyFloat.float) : result PyFloat.float :=
  match r with
  | Ok x => Ok (SFopp x)
  | Raise e => Raise e
  end.

(** [calculate_cost(k) < 1000.0] for the [count] page counts from [n] on. *)
Fixpoint all_below_1000 (count : nat) (n : Z) : bool :=
  match count with
  | O => true
  | S count =>
      match calculate_cost n with
      | Ok x => PyFloat.ltb x lit_1000_0
      | Raise _ => false
      end && all_below_1000 count (n + 1)
  end.

Definition is_pbar_open (ev : Event) : bool :=
  match ev with EvPbar (PbarOpen _ _ _) => true | _ => false end.

Definition is_pbar_close (ev : Event) : bool :=
  match ev with EvPbar PbarClose => true | _ => false end.

Definition count_opens (events : list Event) : nat :=
  length (List.filter is_pbar_open events).

Definition count_closes (events : list Event) : nat :=
  length (List.filter is_pbar_close events).

(** An event [wait_for_processing] may cause: the status request of the
    job, a sleep of [POLLING_INTERVAL] seconds, or a move of the bar. *)
Definition polling_event (self : MathpixProcessor) (pdf_id : string) (ev : Event) : Prop :=
  match ev with
  | EvRequest req _ => req = status_request self pdf_id
  | EvSleep seconds => seconds = POLLING_INTERVAL
  | EvPbar _ => True
  end.

(** A status answer that finds the job still running: a document whose
    ['status'] is neither ['completed'] nor ['error']. *)
Definition is_running (ev : Event) : bool :=
  match ev with
  | EvRequest _ resp =>
      match json_body resp with
      | Some doc =>
          match subscript doc "status" with
          | Ok st => negb (eq_str st "completed") && negb (eq_str st "error")
          | Raise _ => false
          end
      | None => false
      end
  | _ => false
  end.

Definition count_running (events : list Event) : nat :=
  length (List.filter is_running events).

(** The outcomes that leave the loop through [pbar.close()]. *)
Definition leaves_through_close (r : result unit) : bool :=
  match r with
  | Ok _ => true
  | Raise (Exception _) => true
  | Raise _ => false
  end.

Definition is_timeout (r : result unit) : bool :=
  match r with
  | Raise (TimeoutError _) => true
  | _ => false
  end.

Section Accounts.

Context {Svc : Type} `{!Service Svc}.

(** What a stretch of [wait_for_processing] that began at [w] with the bar
    in state [pbar] and ended at [w'] with outcome [r] has done, with
    [events] the part of the log it wrote. *)
Definition polling_account (self : MathpixProcessor) (pdf_id : string)
    (start : datetime.t) (pbar : bool) (w : World Svc)
    (r : result unit) (w' : World Svc) (events : list Event) : Prop :=
  log w' = log w ++ events /\
  files w' = files w /\ dirs w' = dirs w /\
  Forall (polling_event self pdf_id) events /\
  (clock w + Z.of_nat (count_sleeps events) * (POLLING_INTERVAL * datetime.US_PER_SECOND)
   <= clock w')%Z /\
  count_requests events
  = (if is_timeout r then count_sleeps events else S (count_sleeps events)) /\
  count_opens events = (if pbar then 0 else Nat.min 1 (count_running events)) /\
  count_closes events
  = (if leaves_through_close r && (pbar || (0 <? count_running events)%nat) then 1 else 0) /\
  (is_timeout r = true -> (TIMEOUT * datetime.US_PER_SECOND < clock w' - start)%Z) /\
  (r = Ok tt ->
   exists resp doc,
     In (EvRequest (status_request self pdf_id) resp) events /\
     json_body resp = Some doc /\
     subscript doc "status" = Ok (JStr "completed")).

End Accounts.

(** ** More worlds *)

Definition is_ok {A : Type} (r : result A) : bool :=
  match r with
  | Ok _ => true
  | Raise _ => false
  end.

(** An outcome of the script that is a normal return. *)
Definition has_returned {W P : Type} (o : option (result unit * W * P)) : bool :=
  match o with
  | Some (Ok _, _, _) => true
  | _ => false
  end.

Module Scenes.

(** The job is found running by the first [pending] polls and completed by
    every later one; each call takes [took] microseconds. *)
Definition completes_after (pending : nat) (took : N) : Service nat :=
  {| serve := fun n _ _ =>
       (S n,
        if (n <? pending)%nat
        then Mock.status_reply "processing" (Z.of_nat n * 10)
        else Mock.status_reply "completed" 100,
        took);
     oversleep := fun _ _ => 0%N |}.

(** A run of [wait_for_processing] against such a service, with the world
    it started in standing in for a run that did not end. *)
Definition polled (pending : nat) (took : N) (fuel : nat) : result unit * World nat :=
  default (Raise JSONDecodeError, Mock.world 0%nat ∅)
    (wait_for_processing (Service0 := completes_after pending took)
        Mock.str_of Mock.tqdm_refresh fuel
       Mock.processor "job" (Mock.world 0%nat ∅)).

(** A run against a service that reports no progress, with the world it
    started in standing in for a run that did not end. *)
Definition undrawn (fuel : nat) : result unit * World unit :=
  default (Ok tt, Mock.world tt ∅)
    (wait_for_processing (Service0 := Mock.unreported) Mock.str_of Mock.tqdm_refresh fuel
       Mock.processor "job" (Mock.world tt ∅)).

(** The part of the log a run added to an empty log. *)
Definition events_of {Svc : Type} (run : result unit * World Svc) : list Event := log run.2.

End Scenes.

(** ** The script around the processor *)

(** What [process_lecture_notes] prints, one constructor per [print]
    statement, with the values the text shows; the text itself is not
    modelled.  [PrintStats] is the report of the profiler. *)
Inductive Printed : Type :=
  | PrintProcessing (pdf_path : string)
  | PrintUploading
  | PrintDownloading
  | PrintComplete
  | PrintLocation (output_path : Path)
  | PrintFile (fmt : string) (name : string)
  | PrintCost (estimated_cost : PyFloat.float) (num_pages : Z)
  | PrintError (e : exn)
  | PrintStats.

(** [logging.error(f"Process failed: {e}")] *)
Inductive Logged : Type :=
  | LogError (e : exn).

(** The command line after [parse_args()]. *)
Record Args : Type := {
  args_pdf : string;
  args_output : string;
  args_profile : bool
}.

(** [path.name] *)
Definition Path_name (p : Path) : string := List.last p "".

(** The lines of [for fmt, path in results.items()]: the mapping was filled
    in the order of [OUTPUT_FORMATS], each key at most once, so that is the
    order of its items. *)
Definition print_results (results : gmap string Path) : list Printed :=
  flat_map (fun fmt => match results !! fmt with
                       | Some path => [PrintFile fmt (Path_name path)]
                       | None => []
                       end)
    (dict_keys OUTPUT_FORMATS).

Section Script.

Context {Svc : Type} `{!Service Svc}.

(** Python's [str()] of a decoded document and the drawing of the progress
    bar, as for [wait_for_processing]. *)
Variable py_str : json -> string.
Variable pbar_refresh : json -> option DrawError.

(** [import PyPDF2]: the import raises, or gives the count of the pages of
    a PDF from its bytes ([len(PdfReader(file).pages)]), which may raise in
    turn.  The library is not part of the repository. *)
Variable PyPDF2 : result (string -> result Z).

(** How an f-string shows the job id in a URL: a [str] as it is, any other
    value through [str()]. *)
Definition fstring_value (v : json) : string :=
  match v with
  | JStr s => s
  | _ => py_str v
  end.

(** The body of the [try] of [process_lecture_notes], for the paths of
    [INPUT_CONFIG]; the output directory is a relative path without [.]
    components. *)
Definition lecture_notes_steps (fuel : nat) (processor : MathpixProcessor)
    (pdf_path output_dir : string) (w : World Svc)
    : option (result unit * World Svc * list Printed) :=
  let out := [PrintProcessing pdf_path; PrintUploading] in
  match process_pdf processor pdf_path w with
  | (Raise e, w) => Some (Raise e, w, out)
  | (Ok pdf_id, w) =>
      match wait_for_processing py_str pbar_refresh fuel processor (fstring_value pdf_id) w with
      | None => None
      | Some (Raise e, w) => Some (Raise e, w, out)
      | Some (Ok _, w) =>
          let out := out ++ [PrintDownloading] in
          let output_path := path_parts output_dir in
          match download_results processor (fstring_value pdf_id) output_path w with
          | (Raise e, w) => Some (Raise e, w, out)
          | (Ok results, w) =>
              match PyPDF2 with
              | Raise e => Some (Raise e, w, out)
              | Ok count_pages =>
                  match result_bind (open_rb pdf_path w) count_pages with
                  | Raise e => Some (Raise e, w, out)
                  | Ok num_pages =>
                      match calculate_cost num_pages with
                      | Raise e => Some (Raise e, w, out)
                      | Ok estimated_cost =>
                          Some (Ok tt, w,
                                out ++ [PrintComplete; PrintLocation output_path]
                                    ++ print_results results
                                    ++ [PrintCost estimated_cost num_pages])
                      end
                  end
              end
          end
      end
  end.

(** [process_lecture_notes]: the processor is built before the [try]; what
    the [try] raises is printed and raised again. *)
Definition process_lecture_notes (fuel : nat) (environ : gmap string string)
    (pdf_path output_dir : string) (w : World Svc)
    : option (result unit * World Svc * list Printed) :=
  match __init__ environ with
  | Raise e => Some (Raise e, w, [])
  | Ok processor =>
      match lecture_notes_steps fuel processor pdf_path output_dir w with
      | None => None
      | Some (Raise e, w, out) => Some (Raise e, w, out ++ [PrintError e])
      | Some (Ok _, w, out) => Some (Ok tt, w, out)
      end
  end.

(** The [__main__] block: the exit code, the world, what was printed and
    what was logged.  With and without [--profile] the same call is made;
    the profiler adds its report when the call returns. *)
Definition main (fuel : nat) (environ : gmap string string) (args : Args) (w : World Svc)
    : option (Z * World Svc * list Printed * list Logged) :=
  match process_lecture_notes fuel environ (args_pdf args) (args_output args) w with
  | None => None
  | Some (Ok _, w, out) =>
      Some (0%Z, w, if args_profile args then out ++ [PrintStats] else out, [])
  | Some (Raise e, w, out) => Some (1%Z, w, out, [LogError e])
  end.

End Script.

(** A request of the first two stages of the script: the upload of [file]
    or a status request of some job. *)
Definition upload_or_status (self : MathpixProcessor) (file : string) (ev : Event) : Prop :=
  match ev with
  | EvRequest req _ => req = upload_request self file \/
                       exists pdf_id, req = status_request self pdf_id
  | _ => True
  end.

Module Stage.

(** A service for a whole run: the upload is accepted as job [job], the
    job is completed at the first poll, every format downloads. *)
Definition smooth : Service unit :=
  Mock.fixed (fun req =>
    match req_method req with
    | POST => {| status_code := 200; text := "accepted";
                 json_body := Some (JObj [("pdf_id", JStr "job")]) |}
    | GET =>
        if String.eqb (req_url req) (API_ENDPOINTS.status "job")
        then Mock.status_reply "completed" 100
        else {| status_code := 200; text := "converted"; json_body := None |}
    end) 250000.

(** The same service with a job that ends in an error. *)
Definition failing_job : Service unit :=
  Mock.fixed (fun req =>
    match req_method req with
    | POST => {| status_code := 200; text := "accepted";
                 json_body := Some (JObj [("pdf_id", JStr "job")]) |}
    | GET => Mock.status_reply "error" 0
    end) 250000.

(** A page counter that finds twelve pages in every file. *)
Definition twelve_pages : result (string -> result Z) := Ok (fun _ => Ok 12%Z).

Definition args : Args :=
  {| args_pdf := "notes.pdf"; args_output := "processed_notes"; args_profile := false |}.

(** The upload is answered 200 with a document that is a list. *)
Definition listing : Service unit :=
  Mock.fixed (fun _ => {| status_code := 200; text := "[]"; json_body := Some (JArr []) |}) 0.

(** A whole run of the script against [smooth], with the world it started
    in standing in for a run that did not end. *)
Definition whole_run : result unit * World unit * list Printed :=
  default (Raise JSONDecodeError, Mock.with_pdf, [])
    (process_lecture_notes (Service0 := smooth) Mock.str_of Mock.tqdm_refresh twelve_pages 5
       Mock.environ "notes.pdf" "processed_notes" Mock.with_pdf).

(** The stages of that run: the upload, the polling and the downloads. *)
Definition smooth_uploaded : result json * World unit :=
  process_pdf (Service0 := smooth) Mock.processor "notes.pdf" Mock.with_pdf.

Definition smooth_polled : option (result unit * World unit) :=
  wait_for_processing (Service0 := smooth) Mock.str_of Mock.tqdm_refresh 5 Mock.processor "job"
    smooth_uploaded.2.

Definition smooth_downloaded : result (gmap string Path) * World unit :=
  download_results (Service0 := smooth) Mock.processor "job" ["processed_notes"]
    (default (Ok tt, smooth_uploaded.2) smooth_polled).2.

(** The world after the upload to [failing_job], and after the polling. *)
Definition uploaded : result json * World unit :=
  process_pdf (Service0 := failing_job) Mock.processor "notes.pdf" Mock.with_pdf.

Definition polled_error : result unit * World unit :=
  default (Ok tt, uploaded.2)
    (wait_for_processing (Service0 := failing_job)
        Mock.str_of Mock.tqdm_refresh 5 Mock.processor "job"
       uploaded.2).

End Stage.


(** * Properties *)

(** ** Facts about binary64 rounding

    The digit count of a mantissa is followed through the two shifts and the
    rounding of [binary_round_aux]; that is enough to tell the sign and the
    exponent range of a product without computing it. *)

Module PyFloatFacts.
Import PyFloat.
Local Open Scope Z_scope.

Lemma digits2_pos_size p : digits2_pos p = Pos.size p.
Proof. induction p; simpl; congruence. Qed.

Lemma digits_log2 p : Zdigits2 (Z.pos p) = Z.log2 (Z.pos p) + 1.
Proof. destruct p; simpl; rewrite ?digits2_pos_size; lia. Qed.

Lemma digits_nonneg z : 0 <= Zdigits2 z.
Proof. destruct z; simpl; lia. Qed.

Lemma digits_pos_iff z : 0 <= z -> (0 < Zdigits2 z <-> 0 < z).
Proof. destruct z; simpl; lia. Qed.

Lemma digits_mul p q :
  Zdigits2 (Z.pos (p * q)) <= Zdigits2 (Z.pos p) + Zdigits2 (Z.pos q).
Proof.
  rewrite !digits_log2, Pos2Z.inj_mul.
  pose proof (Z.log2_mul_above (Z.pos p) (Z.pos q)). lia.
Qed.

Lemma digits_succ z : 0 < z -> Zdigits2 z <= Zdigits2 (z + 1) <= Zdigits2 z + 1.
Proof.
  destruct z as [|p|p]; try lia. intros _.
  replace (Z.pos p + 1) with (Z.pos (p + 1)) by lia.
  rewrite !digits_log2, Pos2Z.inj_add.
  pose proof (Z.log2_succ_le (Z.pos p)).
  pose proof (Z.log2_le_mono (Z.pos p) (Z.pos p + 1)).
  unfold Z.succ in *. lia.
Qed.

Lemma shr_1_digits s :
  0 <= shr_m s ->
  0 <= shr_m (shr_1 s) /\ Zdigits2 (shr_m (shr_1 s)) = Z.max 0 (Zdigits2 (shr_m s) - 1).
Proof.
  destruct s as [m r t]; simpl. destruct m as [|p|p]; try lia.
  - simpl. lia.
  - intros _. destruct p; simpl; lia.
Qed.

Lemma iter_shr_1_digits p : forall s,
  0 <= shr_m s ->
  0 <= shr_m (SpecFloat.iter_pos shr_1 p s) /\
  Zdigits2 (shr_m (SpecFloat.iter_pos shr_1 p s)) = Z.max 0 (Zdigits2 (shr_m s) - Z.pos p).
Proof.
  induction p as [p IH|p IH|]; intros s Hs; simpl.
  - destruct (shr_1_digits s Hs) as [H1 E1].
    destruct (IH _ H1) as [H2 E2]. destruct (IH _ H2) as [H3 E3].
    split; [exact H3|]. rewrite E3, E2, E1. lia.
  - destruct (IH _ Hs) as [H2 E2]. destruct (IH _ H2) as [H3 E3].
    split; [exact H3|]. rewrite E3, E2. lia.
  - apply shr_1_digits, Hs.
Qed.

(** One normalising shift: above the subnormal range it leaves at most
    [prec] digits and raises the exponent by the digits dropped. *)
Lemma shr_fexp_digits m e l :
  0 < m -> emin prec emax <= e ->
  exists r,
    shr_fexp prec emax m e l = (r, e + Z.max 0 (Zdigits2 m - prec)) /\
    0 < shr_m r /\
    Zdigits2 (shr_m r) = Z.min (Zdigits2 m) prec.
Proof.
  intros Hm He. unfold shr_fexp, fexp, shr.
  assert (Hrec : shr_m (shr_record_of_loc m l) = m)
    by (destruct l as [|[]]; reflexivity).
  pose proof (proj2 (digits_pos_iff m ltac:(lia)) Hm) as Hd.
  unfold emin, prec, emax in *.
  destruct (Z.max (Zdigits2 m + e - 53) (3 - 1024 - 53) - e) as [|p|p] eqn:En.
  - exists (shr_record_of_loc m l). rewrite Hrec.
    repeat split; [f_equal; lia | lia | lia].
  - destruct (iter_shr_1_digits p (shr_record_of_loc m l)) as [H0 E0];
      [rewrite Hrec; lia|]. rewrite Hrec in E0.
    exists (SpecFloat.iter_pos shr_1 p (shr_record_of_loc m l)).
    assert (Z.pos p = Zdigits2 m - 53) by lia.
    repeat split; [f_equal; lia | | lia].
    apply digits_pos_iff; [exact H0 | lia].
  - exists (shr_record_of_loc m l). rewrite Hrec.
    repeat split; [f_equal; lia | lia | lia].
Qed.

Lemma round_nearest_even_cases m l :
  round_nearest_even m l = m \/ round_nearest_even m l = m + 1.
Proof. destruct l as [|[]]; simpl; auto. destruct (Z.even m); auto. Qed.

(** Rounding a positive mantissa at an exponent above the subnormal range:
    the sign is kept, the result is never a zero nor a NaN, and its
    exponent is the input's plus the digits dropped, or one more. *)
Lemma binary_round_aux_positive sx M E :
  emin prec emax <= E ->
  exists m e,
    Zdigits2 (Z.pos m) <= prec /\
    E + Z.max 0 (Zdigits2 (Z.pos M) - prec) <= e <= E + Z.max 0 (Zdigits2 (Z.pos M) - prec) + 1 /\
    binary_round_aux prec emax sx (Z.pos M) E loc_Exact =
      if e <=? emax - prec then S754_finite sx m e else S754_infinity sx.
Proof.
  intros HE. unfold binary_round_aux.
  destruct (shr_fexp_digits (Z.pos M) E loc_Exact) as (r1 & -> & Hr1 & Hd1); [lia | exact HE |].
  set (m2 := round_nearest_even (shr_m r1) (loc_of_shr_record r1)).
  assert (Hm2 : 0 < m2 /\ Zdigits2 (shr_m r1) <= Zdigits2 m2 <= Zdigits2 (shr_m r1) + 1).
  { pose proof (digits_succ _ Hr1).
    destruct (round_nearest_even_cases (shr_m r1) (loc_of_shr_record r1)) as [Hc|Hc];
      fold m2 in Hc; rewrite Hc; lia. }
  destruct Hm2 as [Hm2 Hd2].
  destruct (shr_fexp_digits m2 (E + Z.max 0 (Zdigits2 (Z.pos M) - prec)) loc_Exact)
    as (r2 & -> & Hr2 & Hd3); [exact Hm2 | unfold emin, prec, emax in *; lia |].
  destruct (shr_m r2) as [|m|m] eqn:Em; try lia.
  exists m, (E + Z.max 0 (Zdigits2 (Z.pos M) - prec) + Z.max 0 (Zdigits2 m2 - prec)).
  unfold prec in *. repeat split; try lia.
Qed.

Lemma digits_iter_xO k : forall p,
  Zdigits2 (Z.pos (Pos.iter xO p k)) = Zdigits2 (Z.pos p) + Z.pos k.
Proof.
  induction k as [|k IH] using Pos.peano_ind; intros p.
  - simpl. lia.
  - rewrite Pos.iter_succ. simpl in *. specialize (IH p). lia.
Qed.

(** The conversion of a non-zero integer: sign of the integer, at most
    [prec] digits, exponent from -52 up. *)
Lemma binary_round_int sx p :
  exists m e,
    Zdigits2 (Z.pos m) <= prec /\
    1 - prec <= e <= Z.max 0 (Zdigits2 (Z.pos p) - prec) + 1 /\
    binary_round prec emax sx p 0 =
      if e <=? emax - prec then S754_finite sx m e else S754_infinity sx.
Proof.
  unfold binary_round, shl_align, fexp.
  change (Z.pos (digits2_pos p)) with (Zdigits2 (Z.pos p)).
  pose proof (proj2 (digits_pos_iff (Z.pos p) ltac:(lia)) ltac:(lia)) as Hd.
  assert (Hmin : emin prec emax = -1074) by reflexivity.
  assert (Hprec : prec = 53) by reflexivity.
  destruct (Z.max (Zdigits2 (Z.pos p) + 0 - prec) (emin prec emax) - 0) as [|k|k] eqn:Ek.
  - destruct (binary_round_aux_positive sx p 0) as (m & e & Hm & He & ->); [lia|].
    exists m, e. repeat split; lia.
  - destruct (binary_round_aux_positive sx p 0) as (m & e & Hm & He & ->); [lia|].
    exists m, e. repeat split; lia.
  - destruct (binary_round_aux_positive sx (Pos.iter xO p k)
                (Z.max (Zdigits2 (Z.pos p) + 0 - prec) (emin prec emax)))
      as (m & e & Hm & He & ->); [lia|].
    rewrite digits_iter_xO in He.
    exists m, e. repeat split; lia.
Qed.

Lemma of_int_nonzero n :
  n <> 0 ->
  exists m e,
    Zdigits2 (Z.pos m) <= prec /\
    1 - prec <= e <= Z.max 0 (Zdigits2 n - prec) + 1 /\
    of_int n = if e <=? emax - prec then S754_finite (n <? 0) m e
               else S754_infinity (n <? 0).
Proof.
  intros Hn. unfold of_int, binary_normalize.
  destruct n as [|p|p]; [congruence | |]; apply binary_round_int.
Qed.

Lemma digits_below z k : 0 <= k -> Z.abs z < 2 ^ k -> Zdigits2 z <= k.
Proof.
  intros Hk Hz. destruct z as [|p|p]; simpl in *; [lia | |].
  - change (Z.pos (digits2_pos p)) with (Zdigits2 (Z.pos p)). rewrite digits_log2.
    pose proof (proj1 (Z.log2_lt_pow2 (Z.pos p) k ltac:(lia)) Hz). lia.
  - change (Z.pos (digits2_pos p)) with (Zdigits2 (Z.pos p)). rewrite digits_log2.
    pose proof (proj1 (Z.log2_lt_pow2 (Z.pos p) k ltac:(lia)) Hz). lia.
Qed.

End PyFloatFacts.

Section CostFacts.
Import PyFloat PyFloatFacts.
Local Open Scope Z_scope.

(** Integers below 2^1023 in magnitude convert without overflow. *)
Lemma PyLong_AsDouble_in_range n :
  Z.abs n < 2 ^ 1023 -> PyLong_AsDouble n = Ok (of_int n).
Proof.
  intros Hn. unfold PyLong_AsDouble.
  destruct (Z.eq_dec n 0) as [->|Hz]; [reflexivity|].
  destruct (of_int_nonzero n Hz) as (m & e & _ & He & ->).
  pose proof (digits_below n 1023 ltac:(lia) Hn).
  assert (Hprec : prec = 53) by reflexivity.
  assert (Hmax : emax = 1024) by reflexivity.
  destruct (Z.leb_spec e (emax - prec)); [reflexivity | lia].
Qed.

(** The literals as mantissa and exponent: 0.025 is 0x1.999999999999ap-6,
    0.01 is 0x1.47ae147ae147bp-7, 400.01 is 0x1.90028f5c28f5cp+8. *)
Lemma lit_0_025_value : lit_0_025 = S754_finite false 7205759403792794 (-58).
Proof. vm_compute. reflexivity. Qed.

Lemma lit_0_01_value : lit_0_01 = S754_finite false 5764607523034235 (-59).
Proof. vm_compute. reflexivity. Qed.

Lemma lit_1000_0_value : lit_1000_0 = S754_finite false 8796093022208000 (-43).
Proof. vm_compute. reflexivity. Qed.

Lemma lit_400_01_value : lit_400_01 = S754_finite false 7037050339626844 (-44).
Proof. vm_compute. reflexivity. Qed.

(** Where the conversion stops: 2^1024 - 2^970 - 1 still rounds to the
    largest double, 2^1024 - 2^970 rounds up out of range. *)
Example largest_int_that_converts :
  PyLong_AsDouble (2 ^ 1024 - 2 ^ 970 - 1) = Ok (S754_finite false 9007199254740991 971).
Proof. vm_compute. reflexivity. Qed.

Example smallest_int_that_overflows :
  PyLong_AsDouble (2 ^ 1024 - 2 ^ 970)
  = Raise (OverflowError "int too large to convert to float").
Proof. vm_compute. reflexivity. Qed.

(** A converted negative integer times a positive literal with a 53-digit
    mantissa and an exponent of at least -60 is a finite negative double. *)
Lemma negative_int_times_rate n x my ey :
  n < 0 -> PyLong_AsDouble n = Ok x ->
  Zdigits2 (Z.pos my) = prec -> -60 <= ey <= -prec - 1 ->
  negative_amount (int_mul_float n (S754_finite false my ey)).
Proof.
  intros Hn Hx Hmy Hey. unfold int_mul_float. rewrite Hx. simpl.
  unfold PyLong_AsDouble in Hx.
  destruct (of_int_nonzero n ltac:(lia)) as (m & e & Hm & He & Hof).
  rewrite Hof in Hx. replace (n <? 0) with true in Hx by (symmetry; apply Z.ltb_lt, Hn).
  assert (Hprec : prec = 53) by reflexivity.
  assert (Hmax : emax = 1024) by reflexivity.
  assert (Hmin : emin prec emax = -1074) by reflexivity.
  destruct (Z.leb_spec e (emax - prec)) as [Hfin|]; [|discriminate].
  injection Hx as <-.
  unfold mul, SFmul. simpl xorb.
  destruct (binary_round_aux_positive true (m * my) (e + ey))
    as (m' & e' & Hm' & He' & ->); [lia|].
  pose proof (digits_mul m my).
  destruct (Z.leb_spec e' (emax - prec)); [|lia].
  eexists. split; [reflexivity|]. split; reflexivity.
Qed.

Lemma calculate_cost_low n :
  n <= 40000 -> calculate_cost n = int_mul_float n lit_0_025.
Proof. intros Hn. unfold calculate_cost. apply Z.leb_le in Hn. rewrite Hn. reflexivity. Qed.

Lemma calculate_cost_high n :
  40000 < n -> calculate_cost n = int_mul_float n lit_0_01.
Proof. intros Hn. unfold calculate_cost. apply Z.leb_gt in Hn. rewrite Hn. reflexivity. Qed.

(** C1: for every page count in [0, 40000] the cost is [page_count * 0.025],
    and the call returns; for every page count above 40000 the cost is
    [page_count * 0.01], the outcome of that Python expression; and
    [calculate_cost(40000)] is the double 1000.0 exactly. *)
Theorem C1_calculate_cost_tiers (page_count : Z) :
  (0 <= page_count <= 40000 ->
     calculate_cost page_count = int_mul_float page_count lit_0_025 /\
     calculate_cost page_count = Ok (mul (of_int page_count) lit_0_025)) /\
  (40000 < page_count ->
     calculate_cost page_count = int_mul_float page_count lit_0_01) /\
  calculate_cost 40000 = Ok lit_1000_0.
Proof.
  split; [|split].
  - intros [Hlo Hhi]. rewrite calculate_cost_low by exact Hhi.
    split; [reflexivity|]. unfold int_mul_float.
    rewrite PyLong_AsDouble_in_range; [reflexivity|].
    assert (40000 < 2 ^ 1023) by (apply Z.ltb_lt; vm_compute; reflexivity). lia.
  - apply calculate_cost_high.
  - vm_compute. reflexivity.
Qed.

Lemma C1_calculate_cost_tiers_witness :
  (0 <= 1234 <= 40000 /\
   calculate_cost 1234 = int_mul_float 1234 lit_0_025 /\
   calculate_cost 1234 = Ok (mul (of_int 1234) lit_0_025)) /\
  (40000 < 50000 /\ calculate_cost 50000 = int_mul_float 50000 lit_0_01).
Proof.
  split.
  - split; [lia|]. apply (proj1 (C1_calculate_cost_tiers 1234)). lia.
  - split; [lia|]. apply (proj1 (proj2 (C1_calculate_cost_tiers 50000))). lia.
Defined.

(** C8, as stated, fails: a negative page count beyond the range of a
    double is not turned into a negative amount, the multiplication raises
    [OverflowError]. *)
Lemma C8_negative_overflow_counterexample :
  - 2 ^ 1024 < 0 /\
  calculate_cost (- 2 ^ 1024)
    = Raise (OverflowError "int too large to convert to float") /\
  ~ negative_amount (calculate_cost (- 2 ^ 1024)).
Proof.
  assert (E : calculate_cost (- 2 ^ 1024)
              = Raise (OverflowError "int too large to convert to float"))
    by (vm_compute; reflexivity).
  split; [apply Z.ltb_lt; vm_compute; reflexivity|]. split; [exact E|].
  rewrite E. intros (x & Hx & _). discriminate Hx.
Qed.

(** C8, amended: [calculate_cost(0)] is 0.0, and for every negative page
    count that converts to a double (every one above -2^1023 does) nothing
    is validated: the call returns [page_count * 0.025], a finite amount
    below zero. *)
Theorem C8_zero_and_negative_pages (page_count : Z) (x : float) :
  calculate_cost 0 = Ok zero /\
  (page_count < 0 -> PyLong_AsDouble page_count = Ok x ->
     calculate_cost page_count = Ok (mul x lit_0_025) /\
     negative_amount (calculate_cost page_count)) /\
  (- 2 ^ 1023 < page_count < 0 ->
     PyLong_AsDouble page_count = Ok (of_int page_count) /\
     negative_amount (calculate_cost page_count)).
Proof.
  assert (Hneg : forall n y, n < 0 -> PyLong_AsDouble n = Ok y ->
            calculate_cost n = Ok (mul y lit_0_025) /\ negative_amount (calculate_cost n)).
  { intros n y Hn Hy. rewrite calculate_cost_low by lia. split.
    - unfold int_mul_float. rewrite Hy. reflexivity.
    - rewrite lit_0_025_value.
      apply (negative_int_times_rate n y); [exact Hn | exact Hy | reflexivity | ].
      unfold prec. lia. }
  split; [vm_compute; reflexivity|]. split.
  - apply Hneg.
  - intros Hn.
    assert (Hc : PyLong_AsDouble page_count = Ok (of_int page_count))
      by (apply PyLong_AsDouble_in_range; lia).
    split; [exact Hc|]. apply (Hneg page_count _ (proj2 Hn) Hc).
Qed.

Lemma C8_zero_and_negative_pages_witness :
  -7 < 0 /\ PyLong_AsDouble (-7) = Ok (of_int (-7)) /\
  calculate_cost (-7) = Ok (mul (of_int (-7)) lit_0_025) /\
  negative_amount (calculate_cost (-7)).
Proof.
  split; [lia|]. split; [vm_compute; reflexivity|].
  apply (proj1 (proj2 (C8_zero_and_negative_pages (-7) (of_int (-7))))).
  - lia.
  - vm_compute. reflexivity.
Defined.

(** C9: the cost is not monotone in the page count: 40000 pages cost the
    double 1000.0 and 40001 pages cost the double 400.01, which is less. *)
Theorem C9_calculate_cost_not_monotone :
  calculate_cost 40000 = Ok lit_1000_0 /\
  calculate_cost 40001 = Ok lit_400_01 /\
  ltb lit_400_01 lit_1000_0 = true /\
  exists m n cm cn,
    m < n /\ calculate_cost m = Ok cm /\ calculate_cost n = Ok cn /\ ltb cn cm = true.
Proof.
  assert (H1 : calculate_cost 40000 = Ok lit_1000_0) by (vm_compute; reflexivity).
  assert (H2 : calculate_cost 40001 = Ok lit_400_01) by (vm_compute; reflexivity).
  assert (H3 : ltb lit_400_01 lit_1000_0 = true) by (vm_compute; reflexivity).
  repeat split; try assumption.
  exists 40000, 40001, lit_1000_0, lit_400_01. repeat split; assumption || lia.
Qed.

End CostFacts.

(** ** Polling *)

Section WaitFacts.

Context {Svc : Type} `{!Service Svc}.
Variable py_str : json -> string.
Variable pbar_refresh : json -> option DrawError.

Local Open Scope Z_scope.

Lemma count_requests_app (a b : list Event) :
  count_requests (a ++ b) = (count_requests a + count_requests b)%nat.
Proof. unfold count_requests. rewrite List.filter_app, length_app. reflexivity. Qed.

Lemma count_sleeps_app (a b : list Event) :
  count_sleeps (a ++ b) = (count_sleeps a + count_sleeps b)%nat.
Proof. unfold count_sleeps. rewrite List.filter_app, length_app. reflexivity. Qed.

Lemma not_yet_elapsed (w : World Svc) :
  datetime.elapsed_exceeds (datetime_now w) (datetime_now w) TIMEOUT = false.
Proof. unfold datetime.elapsed_exceeds. rewrite Z.sub_diag. reflexivity. Qed.



Lemma wait_loop_overdue fuel self pdf_id start pbar (w : World Svc) :
  datetime.elapsed_exceeds (datetime_now w) start TIMEOUT = true ->
  wait_loop py_str pbar_refresh (S fuel) self pdf_id start pbar w
  = Some (Raise (TimeoutError "PDF processing took too long"), w).
Proof. intros Hel. simpl. rewrite Hel. reflexivity. Qed.



(** C5: when the first status answer says ['error'], [wait_for_processing]
    raises at once the exception that carries the answered document; the
    log grows by that one request and by nothing else. *)
Theorem C5_error_on_first_poll self pdf_id (w : World Svc) fuel doc :
  json_body (serve (svc w) (clock w) (status_request self pdf_id)).1.2 = Some doc ->
  subscript doc "status" = Ok (JStr "error") ->
  exists w' : World Svc,
    wait_for_processing py_str pbar_refresh (S fuel) self pdf_id w
    = Some (Raise (Exception ("Processing error: " +:+ py_str doc)), w') /\
    spec_error_kind (Exception ("Processing error: " +:+ py_str doc))
    = Some ProcessingErrorKind /\
    log w' = log w ++ [EvRequest (status_request self pdf_id)
                         (serve (svc w) (clock w) (status_request self pdf_id)).1.2] /\
    count_requests [EvRequest (status_request self pdf_id)
                         (serve (svc w) (clock w) (status_request self pdf_id)).1.2] = 1%nat /\
    files w' = files w /\ dirs w' = dirs w.
Proof.
  intros Hdoc Hst. unfold status_request in *.
  destruct (serve (svc w) (clock w)
              (get_request (API_ENDPOINTS.status pdf_id) (headers self))) as [[s resp] took] eqn:Es.
  simpl in Hdoc. eexists.
  split; [|split; [reflexivity|]].
  - unfold wait_for_processing. simpl. rewrite not_yet_elapsed.
    unfold requests_get, requests_send. rewrite Es.
    unfold Response_json. rewrite Hdoc, Hst. simpl. reflexivity.
  - repeat split.
Qed.

(** C6: when the first status answer says ['completed'],
    [wait_for_processing] returns normally; the log grows by that one
    request: no sleep, no second request. *)
Theorem C6_completed_on_first_poll self pdf_id (w : World Svc) fuel doc :
  json_body (serve (svc w) (clock w) (status_request self pdf_id)).1.2 = Some doc ->
  subscript doc "status" = Ok (JStr "completed") ->
  exists w' : World Svc,
    wait_for_processing py_str pbar_refresh (S fuel) self pdf_id w = Some (Ok tt, w') /\
    log w' = log w ++ [EvRequest (status_request self pdf_id)
                         (serve (svc w) (clock w) (status_request self pdf_id)).1.2] /\
    count_sleeps [EvRequest (status_request self pdf_id)
                         (serve (svc w) (clock w) (status_request self pdf_id)).1.2] = 0%nat /\
    files w' = files w /\ dirs w' = dirs w.
Proof.
  intros Hdoc Hst. unfold status_request in *.
  destruct (serve (svc w) (clock w)
              (get_request (API_ENDPOINTS.status pdf_id) (headers self))) as [[s resp] took] eqn:Es.
  simpl in Hdoc. eexists.
  split.
  - unfold wait_for_processing. simpl. rewrite not_yet_elapsed.
    unfold requests_get, requests_send. rewrite Es.
    unfold Response_json. rewrite Hdoc, Hst. simpl. reflexivity.
  - repeat split.
Qed.

End WaitFacts.

(** ** Uploading *)

Section UploadFacts.

Context {Svc : Type} `{!Service Svc}.

Lemma process_pdf_sends self pdf_path (w : World Svc) file :
  files w !! path_parts pdf_path = Some file ->
  process_pdf self pdf_path w
  = let '(response, w) := requests_send (upload_request self file) w in
    if bool_decide (status_code response ≠ 200%Z)
    then (Raise (Exception ("PDF processing failed: " +:+ text response)), w)
    else (result_bind (Response_json response) (fun doc => subscript doc "pdf_id"), w).
Proof. intros Hfile. unfold process_pdf, open_rb. rewrite Hfile. reflexivity. Qed.

(** C7, amended: the credentials are checked for absence when the processor
    is built, and nowhere else; [process_pdf] treats every answer other than
    200 alike, whatever its cause, raising the exception that carries the
    body; on a 200 it returns what the document holds under ['pdf_id']. *)
Theorem C7_credentials_and_upload (environ : gmap string string) self pdf_path
    (w : World Svc) file :
  (environ !! "MATHPIX_APP_ID" = None \/ environ !! "MATHPIX_APP_ID" = Some "" \/
   environ !! "MATHPIX_APP_KEY" = None \/ environ !! "MATHPIX_APP_KEY" = Some "" ->
   exists msg, __init__ environ = Raise (EnvironmentError msg) /\
               spec_error_kind (EnvironmentError msg) = Some AuthenticationErrorKind) /\
  (files w !! path_parts pdf_path = Some file ->
   status_code (serve (svc w) (clock w) (upload_request self file)).1.2 ≠ 200%Z ->
   exists w' : World Svc,
     process_pdf self pdf_path w
     = (Raise (Exception ("PDF processing failed: "
                          +:+ text (serve (svc w) (clock w) (upload_request self file)).1.2)), w') /\
     spec_error_kind (Exception ("PDF processing failed: "
                          +:+ text (serve (svc w) (clock w) (upload_request self file)).1.2))
     = Some UploadErrorKind /\
     log w' = log w ++ [EvRequest (upload_request self file)
                          (serve (svc w) (clock w) (upload_request self file)).1.2]) /\
  (forall doc pdf_id,
   files w !! path_parts pdf_path = Some file ->
   status_code (serve (svc w) (clock w) (upload_request self file)).1.2 = 200%Z ->
   json_body (serve (svc w) (clock w) (upload_request self file)).1.2 = Some doc ->
   subscript doc "pdf_id" = Ok pdf_id ->
   exists w' : World Svc,
     process_pdf self pdf_path w = (Ok pdf_id, w') /\
     log w' = log w ++ [EvRequest (upload_request self file)
                          (serve (svc w) (clock w) (upload_request self file)).1.2]).
Proof.
  split; [|split].
  - intros Habsent. eexists. split; [|reflexivity].
    unfold __init__.
    destruct Habsent as [E|[E|[E|E]]]; rewrite E; simpl;
      rewrite ?orb_true_r; reflexivity.
  - intros Hfile Hcode. rewrite (process_pdf_sends _ _ _ _ Hfile).
    unfold requests_send.
    destruct (serve (svc w) (clock w) (upload_request self file)) as [[s resp] took].
    simpl in *. rewrite bool_decide_eq_true_2 by exact Hcode.
    eexists. repeat split.
  - intros doc pdf_id Hfile Hcode Hdoc Hid. rewrite (process_pdf_sends _ _ _ _ Hfile).
    unfold requests_send.
    destruct (serve (svc w) (clock w) (upload_request self file)) as [[s resp] took].
    simpl in *. rewrite bool_decide_eq_false_2 by (intros Hne; apply Hne, Hcode).
    unfold Response_json. rewrite Hdoc. simpl. rewrite Hid.
    eexists. repeat split.
Qed.

End UploadFacts.

(** C7, as stated, fails: credentials that are present but turned down by
    the service do not lead to an authentication error; [process_pdf] raises
    the same exception as for any other refused upload. *)
Lemma C7_rejected_credentials_counterexample :
  __init__ Mock.environ = Ok Mock.processor /\
  (process_pdf (Service0 := Mock.rejecting) Mock.processor "notes.pdf" Mock.with_pdf).1
  = Raise (Exception "PDF processing failed: Invalid credentials") /\
  spec_error_kind (Exception "PDF processing failed: Invalid credentials")
  = Some UploadErrorKind /\
  spec_error_kind (Exception "PDF processing failed: Invalid credentials")
  <> Some AuthenticationErrorKind.
Proof.
  split; [vm_compute; reflexivity|]. split; [vm_compute; reflexivity|].
  split; [reflexivity|]. discriminate.
Qed.

Lemma C7_credentials_and_upload_witness :
  (exists msg, __init__ ∅ = Raise (EnvironmentError msg) /\
               spec_error_kind (EnvironmentError msg) = Some AuthenticationErrorKind) /\
  (exists w', process_pdf (Service0 := Mock.rejecting) Mock.processor "notes.pdf" Mock.with_pdf
              = (Raise (Exception "PDF processing failed: Invalid credentials"), w')) /\
  (exists w', process_pdf (Service0 := Mock.accepting) Mock.processor "notes.pdf" Mock.with_pdf
              = (Ok (JStr "job"), w')).
Proof.
  split; [|split].
  - apply (proj1 (C7_credentials_and_upload (Service0 := Mock.accepting)
                    ∅ Mock.processor "notes.pdf" Mock.with_pdf "%PDF-1.7")).
    left. reflexivity.
  - destruct (proj1 (proj2 (C7_credentials_and_upload (Service0 := Mock.rejecting)
                    ∅ Mock.processor "notes.pdf" Mock.with_pdf "%PDF-1.7")))
      as (w' & Hrun & _).
    + vm_compute. reflexivity.
    + vm_compute. discriminate.
    + exists w'. exact Hrun.
  - destruct (proj2 (proj2 (C7_credentials_and_upload (Service0 := Mock.accepting)
                    ∅ Mock.processor "notes.pdf" Mock.with_pdf "%PDF-1.7"))
                (JObj [("pdf_id", JStr "job")]) (JStr "job"))
      as (w' & Hrun & _).
    + vm_compute. reflexivity.
    + reflexivity.
    + reflexivity.
    + reflexivity.
    + exists w'. exact Hrun.
Defined.

(** ** Downloading *)

Section DownloadFacts.

Context {Svc : Type} `{!Service Svc}.

Lemma parent_joinpath (p : Path) name : parent (joinpath p name) = p.
Proof. unfold parent, joinpath. apply removelast_last. Qed.

Lemma joinpath_inj (p q : Path) a b : joinpath p a = joinpath q b -> p = q /\ a = b.
Proof. unfold joinpath. apply app_inj_tail. Qed.

Lemma output_file_inj dest ts1 ts2 f1 f2 :
  output_file dest ts1 f1 = output_file dest ts2 f2 -> ts1 = ts2 /\ f1 = f2.
Proof.
  unfold output_file. intros Heq.
  apply joinpath_inj in Heq as [Hdir Hname].
  apply joinpath_inj in Hdir as [_ ->]. split; [reflexivity|].
  apply String.app_inj in Hname. apply String.app_inj in Hname.
  apply String.app_inj in Hname. exact Hname.
Qed.

Lemma lineage_self (p : Path) name : joinpath p name ∈ lineage (joinpath p name).
Proof.
  unfold lineage. apply list_elem_of_fmap.
  exists (length (joinpath p name)). split.
  - symmetry. apply firstn_all.
  - apply list_elem_of_In, in_seq. unfold joinpath. rewrite length_app. simpl. lia.
Qed.

(** [mkdir(parents=True, exist_ok=True)] never raises and leaves the
    directory in place, whether it was there or not. *)
Lemma mkdir_parents_exist_ok (p : Path) name (w : World Svc) :
  exists w1 : World Svc,
    mkdir (joinpath p name) true true w = (Ok tt, w1) /\
    joinpath p name ∈ dirs w1 /\ dirs w ⊆ dirs w1 /\
    files w1 = files w /\ log w1 = log w /\ svc w1 = svc w /\ clock w1 = clock w.
Proof.
  unfold mkdir. case_bool_decide as Hin.
  - exists w. repeat split; [exact Hin | set_solver].
  - simpl. eexists. split; [reflexivity|]. simpl. repeat split.
    + apply elem_of_union_r, elem_of_list_to_set, lineage_self.
    + set_solver.
Qed.

(** The loop over the formats: one request per format whatever the earlier
    answers were, a file and an entry for each answer 200, nothing for the
    others, nothing raised. *)
Lemma download_loop_spec self pdf_id dest ts :
  forall formats (outputs : gmap string Path) (w : World Svc),
    joinpath dest ts ∈ dirs w ->
    NoDup formats ->
    exists (bundle : gmap string Path) (w' : World Svc) answers,
      download_loop self pdf_id (joinpath dest ts) ts formats outputs w = (Ok bundle, w') /\
      length answers = length formats /\
      log w' = log w ++ download_events self pdf_id formats answers /\
      dirs w' = dirs w /\
      (forall i fmt r, formats !! i = Some fmt -> answers !! i = Some r ->
         if bool_decide (status_code r = 200%Z)
         then bundle !! fmt = Some (output_file dest ts fmt) /\
              files w' !! output_file dest ts fmt = Some (content r)
         else bundle !! fmt = outputs !! fmt) /\
      (forall fmt, fmt ∉ formats -> bundle !! fmt = outputs !! fmt) /\
      (forall p, (forall fmt, fmt ∈ formats -> p ≠ output_file dest ts fmt) ->
         files w' !! p = files w !! p) /\
      answers = served_answers self pdf_id formats (svc w) (clock w).
Proof.
  induction formats as [|fmt formats IH]; intros outputs w Hdir Hnodup.
  - exists outputs, w, []. simpl. rewrite app_nil_r.
    repeat split; try reflexivity. intros i fmt r Hi. discriminate Hi.
  - apply NoDup_cons in Hnodup as [Hfresh Hnodup].
    simpl. unfold requests_get, requests_send.
    destruct (serve (svc w) (clock w)
                (get_request (API_ENDPOINTS.download pdf_id fmt) (headers self)))
      as [[s resp] took] eqn:Es.
    case_bool_decide as Hcode.
    + unfold open_wb_write. simpl. rewrite parent_joinpath.
      rewrite bool_decide_eq_true_2 by (right; exact Hdir). simpl.
      match goal with
      | |- context [download_loop _ _ _ _ formats ?o ?w1] =>
          destruct (IH o w1) as (bundle & w' & answers & Hrun & Hlen & Hlog & Hdirs
                                 & Hidx & Hout & Hframe & Hserved);
          [exact Hdir | exact Hnodup |]
      end.
      exists bundle, w', (resp :: answers). rewrite Hrun.
      split; [reflexivity|]. split; [simpl; congruence|].
      split; [rewrite Hlog; simpl; rewrite <- app_assoc; reflexivity|].
      split; [exact Hdirs|]. split; [|split; [|split; [|rewrite Hserved; reflexivity]]].
      * intros [|i] f r Hf Hr; simpl in Hf, Hr.
        -- injection Hf as <-. injection Hr as <-.
           rewrite bool_decide_eq_true_2 by exact Hcode. split.
           ++ rewrite (Hout fmt Hfresh). apply lookup_insert_eq.
           ++ rewrite Hframe; [apply lookup_insert_eq|].
              intros f Hf Heq. apply output_file_inj in Heq as [_ ->]. contradiction.
        -- specialize (Hidx i f r Hf Hr). case_bool_decide; [exact Hidx|].
           rewrite Hidx. apply lookup_insert_ne. intros ->.
           apply Hfresh, list_elem_of_lookup. eauto.
      * intros f Hf. apply not_elem_of_cons in Hf as [Hne Hf].
        rewrite (Hout f Hf). apply lookup_insert_ne. congruence.
      * intros p Hp. rewrite Hframe.
        -- simpl. apply lookup_insert_ne. intros <-. apply (Hp fmt); [left|reflexivity].
        -- intros f Hf. apply Hp. right. exact Hf.
    + match goal with
      | |- context [download_loop _ _ _ _ formats ?o ?w1] =>
          destruct (IH o w1) as (bundle & w' & answers & Hrun & Hlen & Hlog & Hdirs
                                 & Hidx & Hout & Hframe & Hserved);
          [exact Hdir | exact Hnodup |]
      end.
      exists bundle, w', (resp :: answers). rewrite Hrun.
      split; [reflexivity|]. split; [simpl; congruence|].
      split; [rewrite Hlog; simpl; rewrite <- app_assoc; reflexivity|].
      split; [exact Hdirs|]. split; [|split; [|split; [|rewrite Hserved; reflexivity]]].
      * intros [|i] f r Hf Hr; simpl in Hf, Hr.
        -- injection Hf as <-. injection Hr as <-.
           rewrite bool_decide_eq_false_2 by exact Hcode. apply Hout, Hfresh.
        -- apply (Hidx i f r Hf Hr).
      * intros f Hf. apply not_elem_of_cons in Hf as [Hne Hf]. apply Hout, Hf.
      * intros p Hp. rewrite Hframe; [reflexivity|].
        intros f Hf. apply Hp. right. exact Hf.
Qed.

Lemma OUTPUT_FORMATS_keys : dict_keys OUTPUT_FORMATS = ["mmd"; "tex.zip"; "html"].
Proof. reflexivity. Qed.

Lemma OUTPUT_FORMATS_NoDup : NoDup (dict_keys OUTPUT_FORMATS).
Proof. apply (bool_decide_unpack _). vm_compute. exact I. Qed.

(** What a whole call does, over any table with distinct keys. *)
Lemma download_results_over_spec table self pdf_id dest (w : World Svc) :
  NoDup (dict_keys table) ->
  exists (bundle : gmap string Path) (w' : World Svc) answers,
    download_results_over table self pdf_id dest w = (Ok bundle, w') /\
    length answers = length (dict_keys table) /\
    log w' = log w ++ download_events self pdf_id (dict_keys table) answers /\
    joinpath dest (datetime.strftime_Ymd_HMS (datetime_now w)) ∈ dirs w' /\
    dirs w ⊆ dirs w' /\
    (forall i fmt r, dict_keys table !! i = Some fmt -> answers !! i = Some r ->
       if bool_decide (status_code r = 200%Z)
       then bundle !! fmt
            = Some (output_file dest (datetime.strftime_Ymd_HMS (datetime_now w)) fmt) /\
            files w' !! output_file dest (datetime.strftime_Ymd_HMS (datetime_now w)) fmt
            = Some (content r)
       else bundle !! fmt = None) /\
    (forall fmt p, bundle !! fmt = Some p ->
       exists i r, dict_keys table !! i = Some fmt /\ answers !! i = Some r /\
                   status_code r = 200%Z /\
                   p = output_file dest (datetime.strftime_Ymd_HMS (datetime_now w)) fmt /\
                   files w' !! p = Some (content r)) /\
    (forall p,
       (forall fmt, fmt ∈ dict_keys table ->
          p ≠ output_file dest (datetime.strftime_Ymd_HMS (datetime_now w)) fmt) ->
       files w' !! p = files w !! p) /\
    answers = served_answers self pdf_id (dict_keys table) (svc w) (clock w).
Proof.
  intros Hnodup. unfold download_results_over.
  set (ts := datetime.strftime_Ymd_HMS (datetime_now w)).
  destruct (mkdir_parents_exist_ok dest ts w)
    as (w1 & -> & Hdir & Hsub & Hfiles & Hlog & Hsvc & Hclock).
  destruct (download_loop_spec self pdf_id dest ts (dict_keys table) ∅ w1 Hdir Hnodup)
    as (bundle & w' & answers & Hrun & Hlen & Hlog' & Hdirs & Hidx & Hout & Hframe & Hserved).
  exists bundle, w', answers.
  assert (Hidx' : forall i fmt r, dict_keys table !! i = Some fmt -> answers !! i = Some r ->
            if bool_decide (status_code r = 200%Z)
            then bundle !! fmt = Some (output_file dest ts fmt) /\
                 files w' !! output_file dest ts fmt = Some (content r)
            else bundle !! fmt = None).
  { intros i fmt r Hf Hr. specialize (Hidx i fmt r Hf Hr).
    case_bool_decide; [exact Hidx|]. rewrite Hidx. apply lookup_empty. }
  split; [exact Hrun|]. split; [exact Hlen|]. split; [congruence|].
  split; [rewrite Hdirs; exact Hdir|]. split; [rewrite Hdirs; exact Hsub|].
  split; [exact Hidx'|]. split.
  - intros fmt p Hp.
    destruct (decide (fmt ∈ dict_keys table)) as [Hin|Hnin].
    + apply list_elem_of_lookup in Hin as [i Hi].
      destruct (lookup_lt_is_Some_2 answers i) as [r Hr].
      { rewrite Hlen. apply lookup_lt_is_Some_1. eauto. }
      exists i, r. specialize (Hidx' i fmt r Hi Hr).
      case_bool_decide as Hcode.
      * destruct Hidx' as [Hb Hf]. rewrite Hb in Hp. injection Hp as <-.
        repeat split; assumption.
      * congruence.
    + rewrite (Hout fmt Hnin), lookup_empty in Hp. discriminate Hp.
  - split; [|rewrite Hserved, Hsvc, Hclock; reflexivity].
    intros p Hp. rewrite (Hframe p Hp), Hfiles. reflexivity.
Qed.

(** C3: every format of the table is asked for, one request each, whatever
    the earlier answers were, and the answers are those the service gives
    to these requests in this order; nothing is raised; the returned
    mapping holds exactly the formats answered with status 200, each with
    the path of the file that now holds the answered bytes. *)
Theorem C3_failed_downloads_are_skipped table self pdf_id dest (w : World Svc) :
  NoDup (dict_keys table) ->
  exists (bundle : gmap string Path) (w' : World Svc) answers,
    answers = served_answers self pdf_id (dict_keys table) (svc w) (clock w) /\
    download_results_over table self pdf_id dest w = (Ok bundle, w') /\
    length answers = length (dict_keys table) /\
    log w' = log w ++ download_events self pdf_id (dict_keys table) answers /\
    (forall i fmt r, dict_keys table !! i = Some fmt -> answers !! i = Some r ->
       if bool_decide (status_code r = 200%Z)
       then bundle !! fmt
            = Some (output_file dest (datetime.strftime_Ymd_HMS (datetime_now w)) fmt) /\
            files w' !! output_file dest (datetime.strftime_Ymd_HMS (datetime_now w)) fmt
            = Some (content r)
       else bundle !! fmt = None) /\
    (forall fmt p, bundle !! fmt = Some p ->
       exists i r, dict_keys table !! i = Some fmt /\ answers !! i = Some r /\
                   status_code r = 200%Z).
Proof.
  intros Hnodup.
  destruct (download_results_over_spec table self pdf_id dest w Hnodup)
    as (bundle & w' & answers & Hrun & Hlen & Hlog & _ & _ & Hidx & Hent & _ & Hserved).
  exists bundle, w', answers. repeat split; try assumption.
  intros fmt p Hp. destruct (Hent fmt p Hp) as (i & r & Hi & Hr & Hcode & _).
  exists i, r. repeat split; assumption.
Qed.

(** C10: [download_results] always leaves the time-stamped directory in
    place, also when no download succeeds and the mapping is empty; the keys
    of the mapping are among mmd, tex.zip and html; every value is the path
    destination/timestamp/notes_timestamp.format inside that directory. *)
Theorem C10_download_results_layout self pdf_id dest (w : World Svc) :
  exists (bundle : gmap string Path) (w' : World Svc) answers,
    download_results self pdf_id dest w = (Ok bundle, w') /\
    joinpath dest (datetime.strftime_Ymd_HMS (datetime_now w)) ∈ dirs w' /\
    dom bundle ⊆ ({[ "mmd"; "tex.zip"; "html" ]} : gset string) /\
    (forall fmt p, bundle !! fmt = Some p ->
       p = output_file dest (datetime.strftime_Ymd_HMS (datetime_now w)) fmt /\
       p = joinpath (joinpath dest (datetime.strftime_Ymd_HMS (datetime_now w)))
             ("notes_" +:+ datetime.strftime_Ymd_HMS (datetime_now w) +:+ "." +:+ fmt) /\
       parent p = joinpath dest (datetime.strftime_Ymd_HMS (datetime_now w))) /\
    log w' = log w ++ download_events self pdf_id ["mmd"; "tex.zip"; "html"] answers /\
    length answers = 3%nat /\
    (Forall (fun r => status_code r ≠ 200%Z) answers -> bundle = ∅).
Proof.
  destruct (download_results_over_spec OUTPUT_FORMATS self pdf_id dest w OUTPUT_FORMATS_NoDup)
    as (bundle & w' & answers & Hrun & Hlen & Hlog & Hdir & _ & _ & Hent & _).
  exists bundle, w', answers.
  split; [exact Hrun|]. split; [exact Hdir|]. split; [|split; [|split; [|split]]].
  - intros fmt Hfmt. apply elem_of_dom in Hfmt as [p Hp].
    destruct (Hent fmt p Hp) as (i & r & Hi & _).
    apply list_elem_of_lookup_2 in Hi. rewrite OUTPUT_FORMATS_keys in Hi.
    rewrite !elem_of_cons, elem_of_nil in Hi.
    destruct Hi as [->|[->|[->|[]]]]; set_solver.
  - intros fmt p Hp. destruct (Hent fmt p Hp) as (i & r & _ & _ & _ & -> & _).
    repeat split. unfold output_file. apply parent_joinpath.
  - exact Hlog.
  - exact Hlen.
  - intros Hall. apply map_eq. intros fmt. rewrite lookup_empty.
    destruct (bundle !! fmt) as [p|] eqn:Hp; [|reflexivity].
    destruct (Hent fmt p Hp) as (i & r & _ & Hr & Hcode & _).
    rewrite Forall_lookup in Hall. destruct (Hall i r Hr Hcode).
Qed.

(** C2, amended: two runs into the same destination whose time stamps
    differ, the second started in a world that still holds what the first
    one wrote, use different directories, and the second leaves the files of
    the first as they were: afterwards both sets of files are there. *)
Theorem C2_distinct_timestamps_keep_both self pdf_id1 pdf_id2 dest
    (w0 w1 w1' w2 : World Svc) (b1 b2 : gmap string Path) :
  download_results self pdf_id1 dest w0 = (Ok b1, w1) ->
  files w1' = files w1 ->
  dirs w1 ⊆ dirs w1' ->
  download_results self pdf_id2 dest w1' = (Ok b2, w2) ->
  datetime.strftime_Ymd_HMS (datetime_now w0) ≠ datetime.strftime_Ymd_HMS (datetime_now w1') ->
  joinpath dest (datetime.strftime_Ymd_HMS (datetime_now w0))
    ≠ joinpath dest (datetime.strftime_Ymd_HMS (datetime_now w1')) /\
  joinpath dest (datetime.strftime_Ymd_HMS (datetime_now w0)) ∈ dirs w2 /\
  joinpath dest (datetime.strftime_Ymd_HMS (datetime_now w1')) ∈ dirs w2 /\
  (forall fmt p, b1 !! fmt = Some p ->
     parent p = joinpath dest (datetime.strftime_Ymd_HMS (datetime_now w0)) /\
     is_Some (files w1 !! p) /\ files w2 !! p = files w1 !! p) /\
  (forall fmt p, b2 !! fmt = Some p ->
     parent p = joinpath dest (datetime.strftime_Ymd_HMS (datetime_now w1')) /\
     is_Some (files w2 !! p)) /\
  (forall f1 f2 p1 p2, b1 !! f1 = Some p1 -> b2 !! f2 = Some p2 -> p1 ≠ p2).
Proof.
  intros Hrun1 Hfiles Hdirs Hrun2 Hts.
  destruct (download_results_over_spec OUTPUT_FORMATS self pdf_id1 dest w0 OUTPUT_FORMATS_NoDup)
    as (c1 & v1 & a1 & Hr1 & _ & _ & Hd1 & _ & _ & Hent1 & _).
  destruct (download_results_over_spec OUTPUT_FORMATS self pdf_id2 dest w1' OUTPUT_FORMATS_NoDup)
    as (c2 & v2 & a2 & Hr2 & _ & _ & Hd2 & Hsub2 & _ & Hent2 & Hframe2 & _).
  unfold download_results in Hrun1, Hrun2.
  rewrite Hr1 in Hrun1. injection Hrun1 as -> ->.
  rewrite Hr2 in Hrun2. injection Hrun2 as -> ->.
  split; [intros Heq; apply joinpath_inj in Heq as [_ Heq]; contradiction|].
  split; [apply Hsub2, Hdirs, Hd1|]. split; [exact Hd2|].
  split; [|split].
  - intros fmt p Hp. destruct (Hent1 fmt p Hp) as (i & r & _ & _ & _ & -> & Hfile).
    split; [apply parent_joinpath|]. split; [rewrite Hfile; eauto|].
    rewrite Hframe2, Hfiles; [reflexivity|].
    intros f _ Heq. apply output_file_inj in Heq as [Heq _]. contradiction.
  - intros fmt p Hp. destruct (Hent2 fmt p Hp) as (i & r & _ & _ & _ & -> & Hfile).
    split; [apply parent_joinpath|]. rewrite Hfile. eauto.
  - intros f1 f2 p1 p2 Hp1 Hp2.
    destruct (Hent1 f1 p1 Hp1) as (? & ? & _ & _ & _ & -> & _).
    destruct (Hent2 f2 p2 Hp2) as (? & ? & _ & _ & _ & -> & _).
    intros Heq. apply output_file_inj in Heq as [Heq _]. contradiction.
Qed.

End DownloadFacts.

(** ** The properties at work in concrete worlds *)


(** A service stuck at 0% with instant answers is polled 301 times, the
    most the ceiling allows, before the timeout is raised. *)
Example stuck_service_is_polled_301_times :
  exists w',
    wait_for_processing (Service0 := Mock.stuck_at "processing" 0) Mock.str_of Mock.tqdm_refresh 302
      Mock.processor "job" (Mock.world tt ∅)
    = Some (Raise (TimeoutError "PDF processing took too long"), w') /\
    count_requests (log w') = 301%nat /\ count_sleeps (log w') = 301%nat.
Proof. eexists. split; [vm_compute; reflexivity|]. split; vm_compute; reflexivity. Qed.





Lemma C5_error_on_first_poll_witness :
  exists w' : World unit,
    wait_for_processing (Service0 := Mock.stuck_at "error" 0) Mock.str_of Mock.tqdm_refresh 1
      Mock.processor "job" (Mock.world tt ∅)
    = Some (Raise (Exception "Processing error: status error"), w') /\
    count_requests (log w') = 1%nat /\ count_sleeps (log w') = 0%nat.
Proof.
  destruct (C5_error_on_first_poll (Service0 := Mock.stuck_at "error" 0)
      Mock.str_of Mock.tqdm_refresh
              Mock.processor "job" (Mock.world tt ∅) 0 (Mock.status_doc "error" 0))
    as (w' & Hrun & _ & Hlog & _).
  - reflexivity.
  - reflexivity.
  - exists w'. split; [exact Hrun|]. rewrite Hlog. split; reflexivity.
Defined.

Lemma C6_completed_on_first_poll_witness :
  exists w' : World unit,
    wait_for_processing (Service0 := Mock.stuck_at "completed" 100) Mock.str_of Mock.tqdm_refresh 1
      Mock.processor "job" (Mock.world tt ∅)
    = Some (Ok tt, w') /\
    count_requests (log w') = 1%nat /\ count_sleeps (log w') = 0%nat.
Proof.
  destruct (C6_completed_on_first_poll (Service0 := Mock.stuck_at "completed" 100)
      Mock.str_of Mock.tqdm_refresh
              Mock.processor "job" (Mock.world tt ∅) 0 (Mock.status_doc "completed" 100))
    as (w' & Hrun & Hlog & _).
  - reflexivity.
  - reflexivity.
  - exists w'. split; [exact Hrun|]. rewrite Hlog. split; reflexivity.
Defined.

(** Three formats, the archive answered 404: the mapping holds the other
    two and nothing is raised. *)
Example download_without_archive :
  (download_results (Service0 := Mock.without_archive) Mock.processor "job"
     ["processed_notes"] (Mock.world tt ∅)).1
  = Ok {[ "mmd" := ["processed_notes"; "20240101_120000"; "notes_20240101_120000.mmd"];
          "html" := ["processed_notes"; "20240101_120000"; "notes_20240101_120000.html"] ]}.
Proof. vm_compute. reflexivity. Qed.

Lemma C3_failed_downloads_are_skipped_witness :
  NoDup (dict_keys OUTPUT_FORMATS) /\
  exists (bundle : gmap string Path) (w' : World unit),
    download_results (Service0 := Mock.without_archive) Mock.processor "job"
      ["processed_notes"] (Mock.world tt ∅) = (Ok bundle, w') /\
    log w'
    = download_events Mock.processor "job" ["mmd"; "tex.zip"; "html"]
        [ {| status_code := 200; text := "converted"; json_body := None |};
          {| status_code := 404; text := "not found"; json_body := None |};
          {| status_code := 200; text := "converted"; json_body := None |} ] /\
    bundle !! "mmd" = Some (output_file ["processed_notes"] "20240101_120000" "mmd") /\
    bundle !! "tex.zip" = None /\
    bundle !! "html" = Some (output_file ["processed_notes"] "20240101_120000" "html") /\
    files w' !! output_file ["processed_notes"] "20240101_120000" "mmd" = Some "converted" /\
    files w' !! output_file ["processed_notes"] "20240101_120000" "html" = Some "converted".
Proof.
  assert (Hnodup : NoDup (dict_keys OUTPUT_FORMATS))
    by (apply (bool_decide_unpack _); vm_compute; exact I).
  split; [exact Hnodup|].
  destruct (C3_failed_downloads_are_skipped (Service0 := Mock.without_archive)
              OUTPUT_FORMATS Mock.processor "job" ["processed_notes"] (Mock.world tt ∅) Hnodup)
    as (bundle & w' & answers & Hserved & Hrun & _ & Hlog & Hidx & _).
  assert (Hanswers :
            answers
            = [ {| status_code := 200; text := "converted"; json_body := None |};
                {| status_code := 404; text := "not found"; json_body := None |};
                {| status_code := 200; text := "converted"; json_body := None |} ])
    by (rewrite Hserved; vm_compute; reflexivity).
  assert (Hts : datetime.strftime_Ymd_HMS (datetime_now (Mock.world tt ∅)) = "20240101_120000")
    by (vm_compute; reflexivity).
  rewrite Hts in Hidx. rewrite Hanswers in Hidx, Hlog.
  exists bundle, w'. split; [exact Hrun|]. split; [exact Hlog|].
  pose proof (Hidx 0%nat "mmd" _ eq_refl eq_refl) as Hmmd.
  pose proof (Hidx 1%nat "tex.zip" _ eq_refl eq_refl) as Hzip.
  pose proof (Hidx 2%nat "html" _ eq_refl eq_refl) as Hhtml.
  simpl in Hmmd, Hzip, Hhtml.
  destruct Hmmd as [Hm1 Hm2]. destruct Hhtml as [Hh1 Hh2].
  repeat split; assumption.
Defined.

(** C2, as stated, fails: two runs within the same second get the same
    time stamp; the second finds the directory of the first, is not stopped
    by it, and writes over the first run's files. *)
Lemma C2_same_second_counterexample :
  (clock (Mock.world 0%nat ∅) < clock (Mock.first_run 1000).2)%Z /\
  datetime.strftime_Ymd_HMS (datetime_now (Mock.world 0%nat ∅)) = "20240101_120000" /\
  datetime.strftime_Ymd_HMS (datetime_now (Mock.first_run 1000).2) = "20240101_120000" /\
  (Mock.first_run 1000).1 = (Mock.second_run 1000).1 /\
  Mock.bundle_of (Mock.first_run 1000) !! "mmd"
  = Some (output_file ["processed_notes"] "20240101_120000" "mmd") /\
  files (Mock.first_run 1000).2 !! output_file ["processed_notes"] "20240101_120000" "mmd"
  = Some "first run" /\
  files (Mock.second_run 1000).2 !! output_file ["processed_notes"] "20240101_120000" "mmd"
  = Some "second run".
Proof. repeat split; vm_compute; reflexivity. Qed.

Lemma C2_distinct_timestamps_keep_both_witness :
  datetime.strftime_Ymd_HMS (datetime_now (Mock.world 0%nat ∅))
    ≠ datetime.strftime_Ymd_HMS (datetime_now (Mock.first_run 400000).2) /\
  files (Mock.second_run 400000).2 !! output_file ["processed_notes"] "20240101_120000" "mmd"
  = Some "first run" /\
  files (Mock.second_run 400000).2 !! output_file ["processed_notes"] "20240101_120001" "mmd"
  = Some "second run".
Proof.
  assert (Hts : datetime.strftime_Ymd_HMS (datetime_now (Mock.world 0%nat ∅))
                ≠ datetime.strftime_Ymd_HMS (datetime_now (Mock.first_run 400000).2))
    by (vm_compute; discriminate).
  split; [exact Hts|].
  destruct (C2_distinct_timestamps_keep_both (Service0 := Mock.counting 400000)
              Mock.processor "job" "job" ["processed_notes"]
              (Mock.world 0%nat ∅) (Mock.first_run 400000).2 (Mock.first_run 400000).2
              (Mock.second_run 400000).2
              (Mock.bundle_of (Mock.first_run 400000))
              (Mock.bundle_of (Mock.second_run 400000)))
    as (_ & _ & _ & Hfirst & _ & _).
  - vm_compute. reflexivity.
  - reflexivity.
  - reflexivity.
  - vm_compute. reflexivity.
  - exact Hts.
  - destruct (Hfirst "mmd" (output_file ["processed_notes"] "20240101_120000" "mmd"))
      as (_ & _ & Hkept); [vm_compute; reflexivity|].
    split; [rewrite Hkept|]; vm_compute; reflexivity.
Defined.

(** * Further properties *)

(** ** The cost estimate beyond the claims *)

Module PyFloatMore.
Import PyFloat PyFloatFacts.
Local Open Scope Z_scope.

(** The sign is the only thing rounding takes from its sign argument. *)
Lemma binary_round_aux_opp s m e l :
  binary_round_aux prec emax (negb s) m e l = SFopp (binary_round_aux prec emax s m e l).
Proof.
  unfold binary_round_aux.
  destruct (shr_fexp prec emax m e l) as [r1 e1].
  destruct (shr_fexp prec emax _ e1 loc_Exact) as [r2 e2].
  destruct (shr_m r2); [reflexivity| |reflexivity].
  destruct (e2 <=? emax - prec); reflexivity.
Qed.

Lemma of_int_opp n : n <> 0 -> of_int (- n) = SFopp (of_int n).
Proof.
  intros Hn. destruct n as [|p|p]; [congruence| |].
  - change (binary_round prec emax true p 0 = SFopp (binary_round prec emax false p 0)).
    unfold binary_round. destruct (shl_align _ _ _) as [mz ez].
    apply (binary_round_aux_opp false).
  - change (binary_round prec emax false p 0 = SFopp (binary_round prec emax true p 0)).
    unfold binary_round. destruct (shl_align _ _ _) as [mz ez].
    rewrite <- (binary_round_aux_opp true). reflexivity.
Qed.

Lemma mul_opp_finite x sy my ey :
  mul (SFopp x) (S754_finite sy my ey) = SFopp (mul x (S754_finite sy my ey)).
Proof.
  destruct x as [s|s| |s m e]; try reflexivity.
  - destruct s, sy; reflexivity.
  - destruct s, sy; reflexivity.
  - unfold mul, SFmul. cbn [SFopp].
    destruct s, sy; cbn [xorb negb];
      first [apply (binary_round_aux_opp false) | apply (binary_round_aux_opp true)].
Qed.

(** The conversion of a non-zero integer, with the exponent bounded from
    both sides by the number of binary digits. *)
Lemma binary_round_int_exponent sx p :
  exists m e,
    Zdigits2 (Z.pos m) <= prec /\
    1 - prec <= e /\
    Zdigits2 (Z.pos p) - prec <= e <= Z.max 0 (Zdigits2 (Z.pos p) - prec) + 1 /\
    binary_round prec emax sx p 0 =
      if e <=? emax - prec then S754_finite sx m e else S754_infinity sx.
Proof.
  unfold binary_round, shl_align, fexp.
  change (Z.pos (digits2_pos p)) with (Zdigits2 (Z.pos p)).
  pose proof (proj2 (digits_pos_iff (Z.pos p) ltac:(lia)) ltac:(lia)) as Hd.
  assert (Hmin : emin prec emax = -1074) by reflexivity.
  assert (Hprec : prec = 53) by reflexivity.
  destruct (Z.max (Zdigits2 (Z.pos p) + 0 - prec) (emin prec emax) - 0) as [|k|k] eqn:Ek.
  - destruct (binary_round_aux_positive sx p 0) as (m & e & Hm & He & ->); [lia|].
    exists m, e. repeat split; lia.
  - destruct (binary_round_aux_positive sx p 0) as (m & e & Hm & He & ->); [lia|].
    exists m, e. repeat split; lia.
  - destruct (binary_round_aux_positive sx (Pos.iter xO p k)
                (Z.max (Zdigits2 (Z.pos p) + 0 - prec) (emin prec emax)))
      as (m & e & Hm & He & ->); [lia|].
    rewrite digits_iter_xO in He.
    exists m, e. repeat split; lia.
Qed.

Lemma digits_above z k : 0 <= k -> 2 ^ k <= Z.abs z -> k + 1 <= Zdigits2 z.
Proof.
  intros Hk Hz.
  assert (Hpos : 0 < 2 ^ k) by (apply Z.pow_pos_nonneg; lia).
  destruct z as [|p|p]; simpl in Hz; [lia | |];
    change (Zdigits2 _) with (Zdigits2 (Z.pos p)); rewrite digits_log2;
    pose proof (proj1 (Z.log2_le_pow2 (Z.pos p) k ltac:(lia)) Hz); lia.
Qed.

(** Integers of 1025 binary digits or more do not convert. *)
Lemma PyLong_AsDouble_out_of_range n :
  2 ^ 1024 <= Z.abs n ->
  PyLong_AsDouble n = Raise (OverflowError "int too large to convert to float").
Proof.
  intros Hn. pose proof (digits_above n 1024 ltac:(lia) Hn) as Hd.
  assert (Hprec : prec = 53) by reflexivity.
  assert (Hmax : emax = 1024) by reflexivity.
  unfold PyLong_AsDouble, of_int, binary_normalize.
  destruct n as [|p|p]; [simpl in Hd; lia | |].
  - destruct (binary_round_int_exponent false p) as (m & e & _ & _ & He & ->).
    destruct (Z.leb_spec e (emax - prec)); [lia | reflexivity].
  - destruct (binary_round_int_exponent true p) as (m & e & _ & _ & He & ->).
    change (Zdigits2 (Z.neg p)) with (Zdigits2 (Z.pos p)) in Hd.
    destruct (Z.leb_spec e (emax - prec)); [lia | reflexivity].
Qed.

(** What converts is zero or a finite double with the sign of the integer;
    its product with a rate of the script is finite with that sign. *)
Lemma converted_times_rate n x my ey :
  n <> 0 -> PyLong_AsDouble n = Ok x ->
  Zdigits2 (Z.pos my) = prec -> -60 <= ey <= - prec - 1 ->
  exists m e, mul x (S754_finite false my ey) = S754_finite (n <? 0) m e.
Proof.
  intros Hn Hx Hmy Hey. unfold PyLong_AsDouble in Hx.
  destruct (of_int_nonzero n Hn) as (m & e & Hm & He & Hof).
  rewrite Hof in Hx.
  assert (Hprec : prec = 53) by reflexivity.
  assert (Hmax : emax = 1024) by reflexivity.
  assert (Hmin : emin prec emax = -1074) by reflexivity.
  destruct (Z.leb_spec e (emax - prec)) as [Hfin|]; [|discriminate].
  injection Hx as <-.
  unfold mul, SFmul. rewrite xorb_false_r.
  destruct (binary_round_aux_positive (n <? 0) (m * my) (e + ey))
    as (m' & e' & Hm' & He' & ->); [lia|].
  pose proof (digits_mul m my).
  destruct (Z.leb_spec e' (emax - prec)); [|lia].
  eauto.
Qed.

End PyFloatMore.

Section CostMore.
Import PyFloat PyFloatFacts PyFloatMore.
Local Open Scope Z_scope.

Lemma rate_of_tier n :
  exists my ey,
    calculate_cost n = int_mul_float n (S754_finite false my ey) /\
    Zdigits2 (Z.pos my) = prec /\ -60 <= ey <= - prec - 1.
Proof.
  unfold calculate_cost. destruct (n <=? 40000).
  - rewrite lit_0_025_value. eexists _, _. split; [reflexivity|]. split; [reflexivity|].
    unfold prec. lia.
  - rewrite lit_0_01_value. eexists _, _. split; [reflexivity|]. split; [reflexivity|].
    unfold prec. lia.
Qed.

(** An amount that is returned is a finite double. *)
Lemma returned_cost_is_finite num_pages amount :
  calculate_cost num_pages = Ok amount -> is_finite amount = true.
Proof.
  destruct (rate_of_tier num_pages) as (my & ey & -> & Hmy & Hey).
  unfold int_mul_float.
  destruct (PyLong_AsDouble num_pages) as [x|e] eqn:Hx; [|discriminate].
  simpl. intros Heq. injection Heq as <-.
  destruct (Z.eq_dec num_pages 0) as [->|Hn].
  - vm_compute in Hx. injection Hx as <-. reflexivity.
  - destruct (converted_times_rate num_pages x my ey Hn Hx Hmy Hey) as (m & e & ->).
    reflexivity.
Qed.

(** X1: [calculate_cost] never returns an infinity or a NaN: it raises
    [OverflowError] exactly when the page count does not convert to a
    double, and otherwise returns a finite double. *)
Theorem X1_cost_is_finite_or_overflow (num_pages : Z) :
  (calculate_cost num_pages = Raise (OverflowError "int too large to convert to float") /\
   PyLong_AsDouble num_pages = Raise (OverflowError "int too large to convert to float")) \/
  (exists x amount,
     PyLong_AsDouble num_pages = Ok x /\
     calculate_cost num_pages = Ok amount /\ is_finite amount = true).
Proof.
  destruct (PyLong_AsDouble num_pages) as [x|e] eqn:Hx.
  - right. destruct (calculate_cost num_pages) as [amount|e] eqn:Hcost.
    + exists x, amount. split; [reflexivity|]. split; [reflexivity|].
      apply (returned_cost_is_finite num_pages), Hcost.
    + exfalso. destruct (rate_of_tier num_pages) as (my & ey & Hrate & _).
      rewrite Hrate in Hcost. unfold int_mul_float in Hcost. rewrite Hx in Hcost.
      discriminate Hcost.
  - left. destruct (rate_of_tier num_pages) as (my & ey & -> & _).
    unfold int_mul_float. rewrite Hx. simpl.
    unfold PyLong_AsDouble in Hx.
    destruct (of_int num_pages); try discriminate. injection Hx as <-. split; reflexivity.
Qed.

(** X2: the range of page counts the estimate accepts: below 2^1023 in
    magnitude it returns, from 2^1024 on it raises [OverflowError]. *)
Theorem X2_cost_range (num_pages : Z) :
  (Z.abs num_pages < 2 ^ 1023 -> exists amount, calculate_cost num_pages = Ok amount) /\
  (2 ^ 1024 <= Z.abs num_pages ->
   calculate_cost num_pages = Raise (OverflowError "int too large to convert to float")).
Proof.
  destruct (rate_of_tier num_pages) as (my & ey & -> & _ & _). unfold int_mul_float. split.
  - intros Hn. rewrite PyLong_AsDouble_in_range by exact Hn. simpl. eauto.
  - intros Hn. rewrite PyLong_AsDouble_out_of_range by exact Hn. reflexivity.
Qed.

Lemma X2_cost_range_witness :
  (exists amount, calculate_cost 123456789 = Ok amount) /\
  calculate_cost (2 ^ 1024) = Raise (OverflowError "int too large to convert to float").
Proof.
  split.
  - apply (proj1 (X2_cost_range 123456789)). apply Z.ltb_lt. vm_compute. reflexivity.
  - apply (proj2 (X2_cost_range (2 ^ 1024))). apply Z.leb_le. vm_compute. reflexivity.
Defined.

(** X3: a positive page count that converts to a double (every one below
    2^1023 does) is estimated at a finite amount above zero, in either
    tier. *)
Theorem X3_positive_pages_cost_positive (num_pages : Z) :
  0 < num_pages < 2 ^ 1023 ->
  exists amount,
    calculate_cost num_pages = Ok amount /\
    is_finite amount = true /\ ltb zero amount = true.
Proof.
  intros Hn. destruct (rate_of_tier num_pages) as (my & ey & -> & Hmy & Hey).
  unfold int_mul_float.
  assert (Hx : PyLong_AsDouble num_pages = Ok (of_int num_pages))
    by (apply PyLong_AsDouble_in_range; lia).
  rewrite Hx. simpl.
  destruct (converted_times_rate num_pages _ my ey ltac:(lia) Hx Hmy Hey) as (m & e & ->).
  replace (num_pages <? 0) with false by (symmetry; apply Z.ltb_ge; lia).
  eexists. repeat split.
Qed.

Lemma X3_positive_pages_cost_positive_witness :
  exists amount,
    calculate_cost 250000 = Ok amount /\
    is_finite amount = true /\ ltb zero amount = true.
Proof.
  apply X3_positive_pages_cost_positive. split; [lia|].
  apply Z.ltb_lt. vm_compute. reflexivity.
Defined.

(** X4: within the low tier the unvalidated negative counts mirror the
    positive ones: for a non-zero count [calculate_cost(-n)] is
    [-calculate_cost(n)], the same double with the sign flipped. *)
Theorem X4_cost_mirrors_sign (num_pages : Z) :
  -40000 <= num_pages <= 40000 -> num_pages <> 0 ->
  calculate_cost (- num_pages) = negated (calculate_cost num_pages).
Proof.
  intros Hn Hnz. rewrite !calculate_cost_low by lia.
  rewrite lit_0_025_value. unfold int_mul_float, PyLong_AsDouble.
  rewrite of_int_opp by exact Hnz.
  destruct (of_int num_pages) as [s|s| |s m e]; cbn [SFopp result_bind negated].
  - f_equal. exact (mul_opp_finite (S754_zero s) _ _ _).
  - reflexivity.
  - reflexivity.
  - f_equal. exact (mul_opp_finite (S754_finite s m e) _ _ _).
Qed.

Lemma X4_cost_mirrors_sign_witness :
  calculate_cost (- 1234) = negated (calculate_cost 1234).
Proof. apply (X4_cost_mirrors_sign 1234); lia. Defined.

Lemma all_below_1000_spec count : forall n,
  all_below_1000 count n = true ->
  forall k, n <= k < n + Z.of_nat count ->
    exists x, calculate_cost k = Ok x /\ ltb x lit_1000_0 = true.
Proof.
  induction count as [|count IH]; intros n Hall k Hk; [lia|].
  simpl in Hall. apply andb_prop in Hall as [Hn Hrest].
  destruct (Z.eq_dec k n) as [->|Hne].
  - destruct (calculate_cost n) as [x|]; [|discriminate]. eauto.
  - apply (IH (n + 1) Hrest). lia.
Qed.

(** X5: after the tier change the estimate stays below that of 40000 pages
    until 100000 pages: every count from 40001 to 99999 costs less than
    1000.0, and 100000 pages cost 1000.0 again. *)
Theorem X5_cheaper_tier_window (num_pages : Z) :
  (40000 < num_pages < 100000 ->
   exists amount, calculate_cost num_pages = Ok amount /\ ltb amount lit_1000_0 = true) /\
  calculate_cost 100000 = Ok lit_1000_0.
Proof.
  split; [|vm_compute; reflexivity].
  intros Hn. apply (all_below_1000_spec (Z.to_nat 59999) 40001); [vm_compute; reflexivity|].
  rewrite Z2Nat.id; lia.
Qed.

Lemma X5_cheaper_tier_window_witness :
  exists amount, calculate_cost 77777 = Ok amount /\ ltb amount lit_1000_0 = true.
Proof. apply (proj1 (X5_cheaper_tier_window 77777)). lia. Defined.

End CostMore.

(** ** Polling beyond the claims *)

Section WaitMore.

Context {Svc : Type} `{!Service Svc}.
Variable py_str : json -> string.
Variable pbar_refresh : json -> option DrawError.

Local Open Scope Z_scope.

Lemma count_opens_app (a b : list Event) :
  count_opens (a ++ b) = (count_opens a + count_opens b)%nat.
Proof. unfold count_opens. rewrite List.filter_app, length_app. reflexivity. Qed.

Lemma count_closes_app (a b : list Event) :
  count_closes (a ++ b) = (count_closes a + count_closes b)%nat.
Proof. unfold count_closes. rewrite List.filter_app, length_app. reflexivity. Qed.

Lemma count_running_app (a b : list Event) :
  count_running (a ++ b) = (count_running a + count_running b)%nat.
Proof. unfold count_running. rewrite List.filter_app, length_app. reflexivity. Qed.

Lemma eq_str_true st s : eq_str st s = true -> st = JStr s.
Proof.
  destruct st; simpl; try discriminate. intros H. apply String.eqb_eq in H. congruence.
Qed.

Lemma polling_account_nil self pdf_id start pbar (w : World Svc) :
  TIMEOUT * datetime.US_PER_SECOND < clock w - start ->
  polling_account self pdf_id start pbar w
    (Raise (TimeoutError "PDF processing took too long")) w [].
Proof.
  intros Hlate. unfold polling_account. rewrite app_nil_r.
  change (count_sleeps []) with 0%nat. change (count_requests []) with 0%nat.
  change (count_opens []) with 0%nat. change (count_closes []) with 0%nat.
  change (count_running []) with 0%nat.
  cbn [is_timeout leaves_through_close andb].
  split; [reflexivity|]. split; [reflexivity|]. split; [reflexivity|].
  split; [constructor|]. split; [lia|]. split; [reflexivity|].
  split; [destruct pbar; reflexivity|]. split; [reflexivity|].
  split; [intros _; exact Hlate|discriminate].
Qed.

(** A turn that leaves the loop after its request, on an answer that does
    not find the job running. *)
Lemma polling_account_last self pdf_id start pbar (w : World Svc) resp r :
  is_timeout r = false ->
  is_running (EvRequest (status_request self pdf_id) resp) = false ->
  (r = Ok tt -> exists doc, json_body resp = Some doc /\
                            subscript doc "status" = Ok (JStr "completed")) ->
  forall w' : World Svc,
    log w' = log w ++ EvRequest (status_request self pdf_id) resp
                       :: (if leaves_through_close r && pbar then [EvPbar PbarClose] else []) ->
    files w' = files w -> dirs w' = dirs w -> clock w <= clock w' ->
    polling_account self pdf_id start pbar w r w'
      (EvRequest (status_request self pdf_id) resp
         :: (if leaves_through_close r && pbar then [EvPbar PbarClose] else [])).
Proof.
  intros Hr Hidle Hok w' Hlog Hfiles Hdirs Hclock. unfold polling_account.
  rewrite Hr.
  assert (Hs : forall b : bool,
            count_sleeps (EvRequest (status_request self pdf_id) resp
                            :: (if b then [EvPbar PbarClose] else [])) = 0%nat)
    by (intros []; reflexivity).
  assert (Hn : forall b : bool,
            count_running (EvRequest (status_request self pdf_id) resp
                             :: (if b then [EvPbar PbarClose] else [])) = 0%nat)
    by (intros []; unfold count_running; cbn [List.filter]; rewrite Hidle; reflexivity).
  rewrite Hs, Hn.
  split; [exact Hlog|]. split; [exact Hfiles|]. split; [exact Hdirs|].
  split; [|split; [lia|split; [|split; [|split; [|split]]]]].
  - constructor; [reflexivity|]. destruct (_ && _); repeat constructor.
  - destruct (_ && _); reflexivity.
  - destruct (_ && _), pbar; reflexivity.
  - rewrite orb_false_r. destruct (leaves_through_close r), pbar; reflexivity.
  - discriminate.
  - intros Hrok. destruct (Hok Hrok) as (doc & Hdoc & Hst).
    exists resp, doc. split; [left; reflexivity|]. split; assumption.
Qed.

(** A turn that leaves the loop because the bar cannot be drawn: the job
    was found running, the bar is there, created in this turn if it was not
    before, and stays open. *)
Lemma polling_account_undrawn self pdf_id start (pbar : bool) (w : World Svc) resp err :
  is_running (EvRequest (status_request self pdf_id) resp) = true ->
  forall w' : World Svc,
    log w' = log w ++ EvRequest (status_request self pdf_id) resp
                       :: (if pbar then [] else [EvPbar (PbarOpen 100 "Processing PDF" "%")]) ->
    files w' = files w -> dirs w' = dirs w -> clock w <= clock w' ->
    polling_account self pdf_id start pbar w (Raise (draw_exn err)) w'
      (EvRequest (status_request self pdf_id) resp
         :: (if pbar then [] else [EvPbar (PbarOpen 100 "Processing PDF" "%")])).
Proof.
  intros Hbusy w' Hlog Hfiles Hdirs Hclock. unfold polling_account.
  assert (Ht : is_timeout (Raise (draw_exn err)) = false) by (destruct err; reflexivity).
  assert (Hl : leaves_through_close (Raise (draw_exn err)) = false)
    by (destruct err; reflexivity).
  rewrite Ht, Hl. cbn [andb].
  assert (Hs : count_sleeps (EvRequest (status_request self pdf_id) resp
                   :: (if pbar then [] else [EvPbar (PbarOpen 100 "Processing PDF" "%")]))
               = 0%nat)
    by (destruct pbar; reflexivity).
  assert (Hn : count_running (EvRequest (status_request self pdf_id) resp
                   :: (if pbar then [] else [EvPbar (PbarOpen 100 "Processing PDF" "%")]))
               = 1%nat)
    by (destruct pbar; unfold count_running; cbn [List.filter]; rewrite Hbusy; reflexivity).
  rewrite Hs, Hn.
  split; [exact Hlog|]. split; [exact Hfiles|]. split; [exact Hdirs|].
  split; [|split; [lia|split; [|split; [|split; [|split]]]]].
  - constructor; [reflexivity|]. destruct pbar; repeat constructor.
  - destruct pbar; reflexivity.
  - destruct pbar; reflexivity.
  - destruct pbar; reflexivity.
  - discriminate.
  - destruct err; discriminate.
Qed.

(** Every way one turn of the loop can go: it leaves with an account of
    what it did, or it goes on in a later world after one request and one
    sleep. *)
Lemma wait_loop_turn self pdf_id start pbar (w : World Svc) :
  (exists r (w' : World Svc) events,
     (forall fuel, wait_loop
         py_str pbar_refresh (S fuel) self pdf_id start pbar w = Some (r, w')) /\
     polling_account self pdf_id start pbar w r w' events /\
     count_sleeps events = 0%nat) \/
  (exists (w2 : World Svc) events,
     (forall fuel, wait_loop py_str pbar_refresh (S fuel) self pdf_id start pbar w
                   = wait_loop py_str pbar_refresh fuel self pdf_id start true w2) /\
     datetime.elapsed_exceeds (datetime_now w) start TIMEOUT = false /\
     clock w + POLLING_INTERVAL * datetime.US_PER_SECOND <= clock w2 /\
     log w2 = log w ++ events /\ files w2 = files w /\ dirs w2 = dirs w /\
     Forall (polling_event self pdf_id) events /\
     count_requests events = 1%nat /\ count_sleeps events = 1%nat /\
     count_opens events = (if pbar then 0%nat else 1%nat) /\
     count_closes events = 0%nat /\
     (forall resp doc, In (EvRequest (status_request self pdf_id) resp) events ->
        json_body resp = Some doc -> subscript doc "status" <> Ok (JStr "completed")) /\
     count_running events = 1%nat).
Proof.
  destruct (datetime.elapsed_exceeds (datetime_now w) start TIMEOUT) eqn:Hel.
  { left. exists (Raise (TimeoutError "PDF processing took too long")), w, [].
    split; [intros fuel; apply wait_loop_overdue, Hel|]. split; [|reflexivity].
    apply polling_account_nil.
    unfold datetime.elapsed_exceeds, datetime_now in Hel. apply Z.ltb_lt in Hel. lia. }
  destruct (serve (svc w) (clock w) (status_request self pdf_id)) as [[s resp] took] eqn:Es.
  assert (Hstep : forall fuel,
            wait_loop py_str pbar_refresh (S fuel) self pdf_id start pbar w
            = let w1 := (requests_get (API_ENDPOINTS.status pdf_id) (headers self) w).2 in
              match Response_json resp with
              | Raise e => Some (Raise e, w1)
              | Ok status =>
                  match subscript status "status" with
                  | Raise e => Some (Raise e, w1)
                  | Ok st =>
                      if eq_str st "completed"
                      then Some (Ok tt, if pbar then pbar_do PbarClose w1 else w1)
                      else if eq_str st "error"
                      then Some (Raise (Exception ("Processing error: " +:+ py_str status)),
                                 if pbar then pbar_do PbarClose w1 else w1)
                      else
                        match pbar_refresh (dict_get status "percent_done" (JInt 0)) with
                        | Some err =>
                            Some (Raise (draw_exn err),
                                  if pbar then w1
                                  else pbar_do (PbarOpen 100 "Processing PDF" "%") w1)
                        | None =>
                            wait_loop py_str pbar_refresh fuel self pdf_id start true
                              (sleep POLLING_INTERVAL
                                 (pbar_do (PbarSet (dict_get status "percent_done" (JInt 0)))
                                    (if pbar then w1
                                     else pbar_do (PbarOpen 100 "Processing PDF" "%") w1)))
                        end
                  end
              end).
  { intros fuel. simpl. rewrite Hel. unfold requests_get, requests_send.
    unfold status_request in Es. rewrite Es. reflexivity. }
  assert (Hw1 : (requests_get (API_ENDPOINTS.status pdf_id) (headers self) w).2
                = {| svc := s; clock := clock w + Z.of_N took; files := files w;
                     dirs := dirs w;
                     log := log w ++ [EvRequest (status_request self pdf_id) resp] |}).
  { unfold requests_get, requests_send. unfold status_request in Es. rewrite Es. reflexivity. }
  set (w1 := (requests_get (API_ENDPOINTS.status pdf_id) (headers self) w).2) in *.
  assert (Hleave : forall r,
            is_timeout r = false ->
            is_running (EvRequest (status_request self pdf_id) resp) = false ->
            (r = Ok tt -> exists doc, json_body resp = Some doc /\
                                      subscript doc "status" = Ok (JStr "completed")) ->
            polling_account self pdf_id start pbar w r
              (if leaves_through_close r && pbar then pbar_do PbarClose w1 else w1)
              (EvRequest (status_request self pdf_id) resp
                 :: (if leaves_through_close r && pbar then [EvPbar PbarClose] else []))).
  { intros r Hr Hidle Hok. apply polling_account_last; try assumption;
      destruct (leaves_through_close r && pbar); rewrite Hw1; simpl;
      rewrite <- ?app_assoc; try reflexivity; lia. }
  unfold Response_json in Hstep. unfold is_running in Hleave.
  destruct (json_body resp) as [status|] eqn:Hdoc.
  2:{ left. exists (Raise JSONDecodeError), w1. eexists.
      split; [intros fuel; rewrite Hstep; reflexivity|].
      split; [apply (Hleave (Raise JSONDecodeError)); [reflexivity|reflexivity|discriminate]
             |reflexivity]. }
  destruct (subscript status "status") as [st|e] eqn:Hst.
  2:{ left. exists (Raise e), w1. eexists.
      assert (He : is_timeout (Raise e) = false /\ leaves_through_close (Raise e) = false).
      { unfold subscript in Hst. destruct status; try (injection Hst as <-; split; reflexivity).
        destruct (dict_lookup "status" fields); [discriminate|].
        injection Hst as <-. split; reflexivity. }
      destruct He as [Ht Hl].
      split; [intros fuel; rewrite Hstep; reflexivity|].
      pose proof (Hleave (Raise e) Ht eq_refl ltac:(discriminate)) as Hacc.
      rewrite Hl in Hacc. simpl in Hacc. split; [exact Hacc|reflexivity]. }
  destruct (eq_str st "completed") eqn:Hc.
  { left. exists (Ok tt), (if pbar then pbar_do PbarClose w1 else w1). eexists.
    split; [intros fuel; rewrite Hstep; reflexivity|].
    pose proof (Hleave (Ok tt) eq_refl eq_refl) as Hacc. simpl in Hacc.
    split; [apply Hacc|destruct pbar; reflexivity].
    intros _. exists status. split; [reflexivity|].
    apply eq_str_true in Hc. congruence. }
  destruct (eq_str st "error") eqn:He.
  { left. exists (Raise (Exception ("Processing error: " +:+ py_str status))),
      (if pbar then pbar_do PbarClose w1 else w1). eexists.
    split; [intros fuel; rewrite Hstep; reflexivity|].
    pose proof (Hleave (Raise (Exception ("Processing error: " +:+ py_str status)))
                  eq_refl eq_refl ltac:(discriminate)) as Hacc.
    simpl in Hacc. split; [apply Hacc|destruct pbar; reflexivity]. }
  assert (Hbusy : is_running (EvRequest (status_request self pdf_id) resp) = true)
    by (unfold is_running; rewrite Hdoc, Hst, Hc, He; reflexivity).
  destruct (pbar_refresh (dict_get status "percent_done" (JInt 0))) as [err|] eqn:Hdraw.
  { left.
    exists (Raise (draw_exn err)),
      (if pbar then w1 else pbar_do (PbarOpen 100 "Processing PDF" "%") w1),
      (EvRequest (status_request self pdf_id) resp
         :: (if pbar then [] else [EvPbar (PbarOpen 100 "Processing PDF" "%")])).
    split; [intros fuel; rewrite Hstep; reflexivity|].
    split; [|destruct pbar; reflexivity].
    apply polling_account_undrawn; [exact Hbusy| | | |];
      destruct pbar; rewrite Hw1; simpl; rewrite <- ?app_assoc; try reflexivity; lia. }
  right. eexists.
  exists (EvRequest (status_request self pdf_id) resp
            :: (if pbar then [] else [EvPbar (PbarOpen 100 "Processing PDF" "%")])
            ++ [EvPbar (PbarSet (dict_get status "percent_done" (JInt 0)));
                EvSleep POLLING_INTERVAL]).
  split; [intros fuel; rewrite Hstep; reflexivity|]. split; [reflexivity|].
  split; [destruct pbar; rewrite Hw1; simpl; lia|].
  split; [destruct pbar; rewrite Hw1; simpl; rewrite <- ?app_assoc; reflexivity|].
  split; [destruct pbar; rewrite Hw1; reflexivity|].
  split; [destruct pbar; rewrite Hw1; reflexivity|].
  split; [destruct pbar; repeat constructor|].
  split; [destruct pbar; reflexivity|]. split; [destruct pbar; reflexivity|].
  split; [destruct pbar; reflexivity|]. split; [destruct pbar; reflexivity|].
  split.
  - intros resp' doc Hin Hdoc' Hcompleted.
    assert (resp' = resp) as ->.
    { destruct pbar; simpl in Hin; destruct Hin as [Heq|Hin];
        try (injection Heq as <-; reflexivity);
        repeat (destruct Hin as [Heq|Hin]; [discriminate Heq|]); destruct Hin. }
    rewrite Hdoc in Hdoc'. injection Hdoc' as <-. rewrite Hst in Hcompleted.
    injection Hcompleted as ->. discriminate Hc.
  - destruct pbar; unfold count_running; cbn [List.filter app]; rewrite Hbusy; reflexivity.
Qed.

(** Whatever the fuel, a run that ends has this account. *)
Lemma wait_loop_outcome self pdf_id start : forall fuel pbar (w : World Svc) r w',
  wait_loop py_str pbar_refresh fuel self pdf_id start pbar w = Some (r, w') ->
  exists events, polling_account self pdf_id start pbar w r w' events.
Proof.
  induction fuel as [|fuel IH]; intros pbar w r w' Hrun; [discriminate|].
  destruct (wait_loop_turn self pdf_id start pbar w)
    as [(r0 & w0 & events & Hdone & Hacc & _)
       |(w2 & ev1 & Hstep & _ & Hclock & Hlog & Hfiles & Hdirs & Hev & Hreq & Hsl
            & Hop & Hcl & _ & Hbusy)].
  - rewrite Hdone in Hrun. injection Hrun as <- <-. eauto.
  - rewrite Hstep in Hrun.
    destruct (IH true w2 r w' Hrun)
      as (ev2 & Hlog2 & Hfiles2 & Hdirs2 & Hev2 & Hclock2 & Hreq2 & Hop2 & Hcl2
          & Hlate & Hok).
    exists (ev1 ++ ev2). unfold polling_account.
    rewrite count_sleeps_app, count_requests_app, count_opens_app, count_closes_app,
      count_running_app.
    rewrite Hreq, Hsl, Hop, Hcl, Hbusy, Hreq2, Hop2, Hcl2.
    split; [rewrite Hlog2, Hlog, app_assoc; reflexivity|].
    split; [congruence|]. split; [congruence|].
    split; [apply Forall_app; split; assumption|].
    split; [lia|]. split; [destruct (is_timeout r); reflexivity|].
    split; [destruct pbar; reflexivity|].
    split; [simpl; rewrite orb_true_r; reflexivity|].
    split; [exact Hlate|].
    intros Hr. destruct (Hok Hr) as (resp & doc & Hin & Hdoc & Hst).
    exists resp, doc. split; [apply in_or_app; right; exact Hin|]. split; assumption.
Qed.

(** With [budget] sleeps left before the ceiling is surely passed, the loop
    leaves within [budget] further turns and requests, whatever the service
    answers. *)
Lemma wait_loop_ends self pdf_id start : forall (budget : nat) pbar (w : World Svc),
  TIMEOUT * datetime.US_PER_SECOND
    < clock w - start + Z.of_nat budget * (POLLING_INTERVAL * datetime.US_PER_SECOND) ->
  exists r (w' : World Svc) events,
    (forall fuel, (budget < fuel)%nat ->
       wait_loop py_str pbar_refresh fuel self pdf_id start pbar w = Some (r, w')) /\
    log w' = log w ++ events /\
    (count_requests events <= budget)%nat.
Proof.
  induction budget as [|budget IH]; intros pbar w Hbudget;
    destruct (wait_loop_turn self pdf_id start pbar w)
      as [(r0 & w0 & events & Hdone & Hacc & Hsl0)
         |(w2 & ev1 & Hstep & Hel & Hclock & Hlog & _ & _ & _ & Hreq & _)].
  - exists r0, w0, events. destruct Hacc as (Hlog & _ & _ & _ & _ & Hreq & _).
    split; [intros [|fuel] Hfuel; [lia|apply Hdone]|]. split; [exact Hlog|].
    rewrite Hreq, Hsl0.
    destruct (is_timeout r0) eqn:Ht; [lia|].
    exfalso. specialize (Hdone 0%nat). simpl in Hdone.
    replace (datetime.elapsed_exceeds (datetime_now w) start TIMEOUT) with true in Hdone.
    + injection Hdone as <- _. discriminate Ht.
    + symmetry. unfold datetime.elapsed_exceeds, datetime_now. apply Z.ltb_lt. lia.
  - unfold datetime.elapsed_exceeds, datetime_now in Hel. apply Z.ltb_ge in Hel. lia.
  - exists r0, w0, events. destruct Hacc as (Hlog & _ & _ & _ & _ & Hreq & _).
    split; [intros [|fuel] Hfuel; [lia|apply Hdone]|]. split; [exact Hlog|].
    rewrite Hreq, Hsl0. destruct (is_timeout r0); lia.
  - destruct (IH true w2) as (r & w' & ev2 & Hrun & Hlog2 & Hreq2); [lia|].
    exists r, w', (ev1 ++ ev2).
    split; [intros [|fuel] Hfuel; [lia|rewrite Hstep; apply Hrun; lia]|].
    split; [rewrite Hlog2, Hlog, app_assoc; reflexivity|].
    rewrite count_requests_app, Hreq. lia.
Qed.

(** X6: [wait_for_processing] always ends, whatever the service answers:
    302 turns of the loop are enough for an outcome, and no run sends more
    than 301 status requests. *)
Theorem X6_polling_always_ends self pdf_id (w : World Svc) :
  exists r (w' : World Svc) events,
    (forall fuel, (301 < fuel)%nat ->
       wait_for_processing py_str pbar_refresh fuel self pdf_id w = Some (r, w')) /\
    log w' = log w ++ events /\
    (count_requests events <= 301)%nat.
Proof.
  apply (wait_loop_ends self pdf_id (datetime_now w) 301 false w).
  unfold datetime_now. rewrite Z.sub_diag. reflexivity.
Qed.

(** X7: the account of a run of [wait_for_processing] that ends: it only
    sends the status request of the job and only sleeps [POLLING_INTERVAL]
    seconds; it sleeps once after every request but the last, or after
    every request when it times out; the clock has moved by at least the
    time slept; files and directories are as before. *)
Theorem X7_polling_account self pdf_id (w : World Svc) fuel r w' :
  wait_for_processing py_str pbar_refresh fuel self pdf_id w = Some (r, w') ->
  exists events,
    log w' = log w ++ events /\
    Forall (polling_event self pdf_id) events /\
    count_requests events
    = (if is_timeout r then count_sleeps events else S (count_sleeps events)) /\
    clock w + Z.of_nat (count_sleeps events) * (POLLING_INTERVAL * datetime.US_PER_SECOND)
    <= clock w' /\
    files w' = files w /\ dirs w' = dirs w.
Proof.
  intros Hrun. apply wait_loop_outcome in Hrun
    as (events & Hlog & Hfiles & Hdirs & Hev & Hclock & Hreq & _).
  exists events. repeat split; assumption.
Qed.

(** X8: what an outcome of [wait_for_processing] tells: a normal return
    means that a status answer said ['completed'], and a [TimeoutError]
    means that more than [TIMEOUT] seconds have passed since the call. *)
Theorem X8_polling_outcomes_are_grounded self pdf_id (w : World Svc) fuel r w' :
  wait_for_processing py_str pbar_refresh fuel self pdf_id w = Some (r, w') ->
  (r = Ok tt ->
   exists events resp doc,
     log w' = log w ++ events /\
     In (EvRequest (status_request self pdf_id) resp) events /\
     json_body resp = Some doc /\ subscript doc "status" = Ok (JStr "completed")) /\
  (is_timeout r = true -> TIMEOUT * datetime.US_PER_SECOND < clock w' - clock w).
Proof.
  intros Hrun. apply wait_loop_outcome in Hrun
    as (events & Hlog & _ & _ & _ & _ & _ & _ & _ & Hlate & Hok).
  split; [|exact Hlate].
  intros Hr. destruct (Hok Hr) as (resp & doc & Hin & Hdoc & Hst).
  exists events, resp, doc. repeat split; assumption.
Qed.

(** X9: the progress bar: it is created once, when the first answer
    arrives that finds the job running, and never again; it is closed
    exactly when the loop leaves on ['completed'] or ['error'] after it was
    created; a run that times out, fails on an answer it cannot read, or
    fails to draw the bar, leaves it open. *)
Theorem X9_progress_bar_discipline self pdf_id (w : World Svc) fuel r w' :
  wait_for_processing py_str pbar_refresh fuel self pdf_id w = Some (r, w') ->
  exists events,
    log w' = log w ++ events /\
    count_opens events = Nat.min 1 (count_running events) /\
    count_closes events
    = (if leaves_through_close r then count_opens events else 0%nat).
Proof.
  intros Hrun. apply wait_loop_outcome in Hrun
    as (events & Hlog & _ & _ & _ & _ & _ & Hop & Hcl & _).
  exists events. split; [exact Hlog|]. split; [exact Hop|].
  rewrite Hcl, Hop. simpl.
  destruct (leaves_through_close r); [|reflexivity].
  destruct (count_running events); reflexivity.
Qed.

(** X10: a first answer the loop cannot read ends the call at once: a body
    that is not JSON raises [JSONDecodeError] and a document without a
    ['status'] raises [KeyError]; one request was sent, nothing slept. *)
Theorem X10_unreadable_first_answer self pdf_id (w : World Svc) fuel :
  (json_body (serve (svc w) (clock w) (status_request self pdf_id)).1.2 = None ->
   exists w' : World Svc,
     wait_for_processing
         py_str pbar_refresh (S fuel) self pdf_id w = Some (Raise JSONDecodeError, w') /\
     log w' = log w ++ [EvRequest (status_request self pdf_id)
                          (serve (svc w) (clock w) (status_request self pdf_id)).1.2]) /\
  (forall fields,
   json_body (serve (svc w) (clock w) (status_request self pdf_id)).1.2 = Some (JObj fields) ->
   dict_lookup "status" fields = None ->
   exists w' : World Svc,
     wait_for_processing
         py_str pbar_refresh (S fuel) self pdf_id w = Some (Raise (KeyError "status"), w') /\
     log w' = log w ++ [EvRequest (status_request self pdf_id)
                          (serve (svc w) (clock w) (status_request self pdf_id)).1.2]).
Proof.
  unfold status_request.
  destruct (serve (svc w) (clock w)
              (get_request (API_ENDPOINTS.status pdf_id) (headers self)))
    as [[s resp] took] eqn:Es. simpl.
  split.
  - intros Hdoc. eexists. split.
    + unfold wait_for_processing. simpl. rewrite not_yet_elapsed.
      unfold requests_get, requests_send. rewrite Es.
      unfold Response_json. rewrite Hdoc. reflexivity.
    + reflexivity.
  - intros fields Hdoc Hkey. eexists. split.
    + unfold wait_for_processing. simpl. rewrite not_yet_elapsed.
      unfold requests_get, requests_send. rewrite Es.
      unfold Response_json. rewrite Hdoc. simpl. rewrite Hkey. reflexivity.
    + reflexivity.
Qed.

End WaitMore.

(** ** Construction and upload beyond the claims *)

Section UploadMore.

Context {Svc : Type} `{!Service Svc}.

(** X11: a processor is built only from credentials that are both present
    and non-empty, and it sends them as they are: the upload carries the
    two credential headers and no [Content-Type], the polls and downloads
    carry all three. *)
Theorem X11_credentials_reach_requests (environ : gmap string string) self :
  __init__ environ = Ok self ->
  exists id key,
    environ !! "MATHPIX_APP_ID" = Some id /\ id <> "" /\
    environ !! "MATHPIX_APP_KEY" = Some key /\ key <> "" /\
    (forall file,
       req_headers (upload_request self file) = [("app_id", id); ("app_key", key)]) /\
    (forall pdf_id,
       req_headers (status_request self pdf_id)
       = [("app_id", id); ("app_key", key); ("Content-Type", "application/json")]) /\
    (forall pdf_id fmt,
       req_headers (get_request (API_ENDPOINTS.download pdf_id fmt) (headers self))
       = [("app_id", id); ("app_key", key); ("Content-Type", "application/json")]).
Proof.
  unfold __init__. intros Hinit.
  destruct (environ !! "MATHPIX_APP_ID") as [[|a id]|]; try discriminate Hinit.
  destruct (environ !! "MATHPIX_APP_KEY") as [[|b key]|]; try discriminate Hinit.
  simpl in Hinit. injection Hinit as <-.
  exists (String a id), (String b key).
  repeat split; try discriminate.
Qed.

(** X12: [process_pdf] sends one request at most and writes nothing: when
    the PDF cannot be opened it raises [FileNotFoundError] in an untouched
    world; otherwise the log grows by the one upload, a POST to the PDF
    endpoint with the bytes of the file and the processing options, and
    files and directories stay as they were, whatever the outcome. *)
Theorem X12_upload_sends_one_request self pdf_path (w : World Svc) :
  (files w !! path_parts pdf_path = None ->
   process_pdf self pdf_path w = (Raise (FileNotFoundError pdf_path), w)) /\
  (forall file,
   files w !! path_parts pdf_path = Some file ->
   exists resp,
     log (process_pdf self pdf_path w).2 = log w ++ [EvRequest (upload_request self file) resp] /\
     req_method (upload_request self file) = POST /\
     req_url (upload_request self file) = "https://api.mathpix.com/v3/pdf" /\
     req_files (upload_request self file) = [("file", file)] /\
     req_data (upload_request self file) = [("options_json", PROCESSING_OPTIONS)] /\
     files (process_pdf self pdf_path w).2 = files w /\
     dirs (process_pdf self pdf_path w).2 = dirs w).
Proof.
  split.
  - intros Hfile. unfold process_pdf, open_rb. rewrite Hfile. reflexivity.
  - intros file Hfile. rewrite (process_pdf_sends _ _ _ _ Hfile).
    unfold requests_send.
    destruct (serve (svc w) (clock w) (upload_request self file)) as [[s resp] took].
    exists resp. case_bool_decide; repeat split.
Qed.

(** X13: an answer 200 that names no job is an error, not a job: a body
    that is not JSON raises [JSONDecodeError], a document without
    ['pdf_id'] raises [KeyError], and a document that is no [dict] raises
    [TypeError]. *)
Theorem X13_upload_needs_a_job_id self pdf_path (w : World Svc) file :
  files w !! path_parts pdf_path = Some file ->
  status_code (serve (svc w) (clock w) (upload_request self file)).1.2 = 200%Z ->
  (json_body (serve (svc w) (clock w) (upload_request self file)).1.2 = None ->
   (process_pdf self pdf_path w).1 = Raise JSONDecodeError) /\
  (forall fields,
   json_body (serve (svc w) (clock w) (upload_request self file)).1.2 = Some (JObj fields) ->
   dict_lookup "pdf_id" fields = None ->
   (process_pdf self pdf_path w).1 = Raise (KeyError "pdf_id")) /\
  (forall doc,
   json_body (serve (svc w) (clock w) (upload_request self file)).1.2 = Some doc ->
   (forall fields, doc <> JObj fields) ->
   exists msg, (process_pdf self pdf_path w).1 = Raise (TypeError msg)).
Proof.
  intros Hfile Hcode. rewrite (process_pdf_sends _ _ _ _ Hfile).
  unfold requests_send.
  destruct (serve (svc w) (clock w) (upload_request self file)) as [[s resp] took].
  simpl in *. rewrite bool_decide_eq_false_2 by (intros Hne; apply Hne, Hcode).
  unfold Response_json. simpl. split; [|split].
  - intros ->. reflexivity.
  - intros fields -> Hkey. simpl. rewrite Hkey. reflexivity.
  - intros doc -> Hnot. destruct doc; simpl; eauto. destruct (Hnot fields eq_refl).
Qed.

End UploadMore.

(** ** Downloading beyond the claims *)

Section StampFacts.

Local Open Scope Z_scope.

Lemma day_of_second t :
  t / datetime.US_PER_DAY = t / datetime.US_PER_SECOND / 86400.
Proof.
  unfold datetime.US_PER_DAY. rewrite (Z.mul_comm 86400).
  rewrite Z.div_div by (unfold datetime.US_PER_SECOND; lia). reflexivity.
Qed.

Lemma second_of_day t :
  t mod datetime.US_PER_DAY / datetime.US_PER_SECOND
  = (t / datetime.US_PER_SECOND) mod 86400.
Proof.
  unfold datetime.US_PER_DAY. rewrite (Z.mul_comm 86400).
  assert (Hus : 0 < datetime.US_PER_SECOND) by (unfold datetime.US_PER_SECOND; lia).
  rewrite Z.rem_mul_r by lia.
  rewrite Z.mul_comm, Z.div_add by lia.
  rewrite Z.div_small by (apply Z.mod_pos_bound; exact Hus). lia.
Qed.

(** X14: the time stamp has the resolution of one second: two instants of
    the same second give the same directory name. *)
Theorem X14_stamp_of_the_same_second (t1 t2 : datetime.t) :
  t1 / datetime.US_PER_SECOND = t2 / datetime.US_PER_SECOND ->
  datetime.strftime_Ymd_HMS t1 = datetime.strftime_Ymd_HMS t2.
Proof.
  intros Hsame. unfold datetime.strftime_Ymd_HMS.
  rewrite !day_of_second, !second_of_day, Hsame. reflexivity.
Qed.

Lemma X14_stamp_of_the_same_second_witness :
  datetime.strftime_Ymd_HMS (datetime.at_2000s 2024 1 1 12 0 0 1)
  = datetime.strftime_Ymd_HMS (datetime.at_2000s 2024 1 1 12 0 0 999999).
Proof. apply X14_stamp_of_the_same_second. vm_compute. reflexivity. Defined.

End StampFacts.

Section DownloadMore.

Context {Svc : Type} `{!Service Svc}.

Lemma mkdir_new_dirs (p : Path) (w w1 : World Svc) r :
  mkdir p true true w = (r, w1) ->
  forall d, d ∈ dirs w1 -> d ∈ dirs w \/ d ∈ lineage p.
Proof.
  unfold mkdir. case_bool_decide; simpl; intros Heq d Hd.
  - injection Heq as _ <-. left. exact Hd.
  - injection Heq as _ <-. simpl in Hd.
    apply elem_of_union in Hd as [Hd|Hd]; [left; exact Hd|].
    right. apply elem_of_list_to_set in Hd. exact Hd.
Qed.

(** X15: [download_results] writes inside its time-stamped directory and
    nowhere else: every file outside that directory is as it was, every
    directory that was there still is, and the only directories it may add
    are the time-stamped one and those above it. *)
Theorem X15_download_stays_in_its_directory self pdf_id dest (w : World Svc) :
  (forall p,
     parent p ≠ joinpath dest (datetime.strftime_Ymd_HMS (datetime_now w)) ->
     files (download_results self pdf_id dest w).2 !! p = files w !! p) /\
  dirs w ⊆ dirs (download_results self pdf_id dest w).2 /\
  (forall d,
     d ∈ dirs (download_results self pdf_id dest w).2 ->
     d ∈ dirs w \/ d ∈ lineage (joinpath dest (datetime.strftime_Ymd_HMS (datetime_now w)))).
Proof.
  set (ts := datetime.strftime_Ymd_HMS (datetime_now w)).
  destruct (download_results_over_spec OUTPUT_FORMATS self pdf_id dest w OUTPUT_FORMATS_NoDup)
    as (bundle & w' & answers & Hrun & _ & _ & _ & Hsub & _ & _ & Hframe).
  fold ts in Hframe.
  split; [|split].
  - intros p Hp. unfold download_results. rewrite Hrun. simpl. apply Hframe.
    intros fmt _ ->. apply Hp. unfold output_file. apply parent_joinpath.
  - unfold download_results. rewrite Hrun. exact Hsub.
  - unfold download_results, download_results_over. fold ts.
    destruct (mkdir_parents_exist_ok dest ts w) as (w1 & Hmk & Hdir & _).
    rewrite Hmk.
    destruct (download_loop_spec self pdf_id dest ts (dict_keys OUTPUT_FORMATS) ∅ w1 Hdir
                OUTPUT_FORMATS_NoDup)
      as (b & w2 & a & -> & _ & _ & Hdirs & _).
    simpl. rewrite Hdirs. apply (mkdir_new_dirs _ _ _ _ Hmk).
Qed.

(** X16: two runs into the same destination whose time stamps coincide
    collide: a format both runs download gets one and the same path, and
    after the second run the file holds what the second run was
    answered. *)
Theorem X16_same_second_runs_collide self pdf_id1 pdf_id2 dest
    (w0 w1 w1' w2 : World Svc) (b1 b2 : gmap string Path) :
  download_results self pdf_id1 dest w0 = (Ok b1, w1) ->
  download_results self pdf_id2 dest w1' = (Ok b2, w2) ->
  datetime.strftime_Ymd_HMS (datetime_now w0) = datetime.strftime_Ymd_HMS (datetime_now w1') ->
  forall fmt p1 p2,
    b1 !! fmt = Some p1 -> b2 !! fmt = Some p2 ->
    p1 = p2 /\
    exists events r,
      log w2 = log w1' ++ events /\
      In (EvRequest (get_request (API_ENDPOINTS.download pdf_id2 fmt) (headers self)) r) events /\
      status_code r = 200%Z /\
      files w2 !! p1 = Some (content r).
Proof.
  intros Hrun1 Hrun2 Hsame fmt p1 p2 Hp1 Hp2.
  destruct (download_results_over_spec OUTPUT_FORMATS self pdf_id1 dest w0 OUTPUT_FORMATS_NoDup)
    as (c1 & v1 & a1 & Hr1 & _ & _ & _ & _ & _ & Hent1 & _).
  destruct (download_results_over_spec OUTPUT_FORMATS self pdf_id2 dest w1' OUTPUT_FORMATS_NoDup)
    as (c2 & v2 & a2 & Hr2 & Hlen2 & Hlog2 & _ & _ & _ & Hent2 & _).
  unfold download_results in Hrun1, Hrun2.
  rewrite Hr1 in Hrun1. injection Hrun1 as -> ->.
  rewrite Hr2 in Hrun2. injection Hrun2 as -> ->.
  destruct (Hent1 fmt p1 Hp1) as (? & ? & _ & _ & _ & -> & _).
  destruct (Hent2 fmt p2 Hp2) as (i & r & Hi & Hr & Hcode & -> & Hfile).
  rewrite Hsame. split; [reflexivity|].
  exists (download_events self pdf_id2 (dict_keys OUTPUT_FORMATS) a2), r.
  split; [exact Hlog2|]. split; [|split; [exact Hcode|exact Hfile]].
  unfold download_events. apply list_elem_of_In.
  apply (list_elem_of_lookup_2 _ i). rewrite lookup_zip_with, Hi. simpl. rewrite Hr. reflexivity.
Qed.

End DownloadMore.

(** ** The script around the processor *)

Section ScriptFacts.

Context {Svc : Type} `{!Service Svc}.
Variable py_str : json -> string.
Variable pbar_refresh : json -> option DrawError.
Variable PyPDF2 : result (string -> result Z).

Local Open Scope Z_scope.

(** X17: without credentials the script stops before it does anything: no
    request is sent, nothing is printed (the constructor runs outside the
    [try], so not even the error line), the error is logged and the exit
    code is 1. *)
Theorem X17_no_credentials_no_run fuel (environ : gmap string string) args (w : World Svc) :
  environ !! "MATHPIX_APP_ID" = None \/ environ !! "MATHPIX_APP_ID" = Some "" \/
  environ !! "MATHPIX_APP_KEY" = None \/ environ !! "MATHPIX_APP_KEY" = Some "" ->
  exists msg,
    process_lecture_notes
        py_str pbar_refresh PyPDF2 fuel environ (args_pdf args) (args_output args) w
    = Some (Raise (EnvironmentError msg), w, []) /\
    main py_str pbar_refresh PyPDF2 fuel environ args w
    = Some (1, w, [], [LogError (EnvironmentError msg)]).
Proof.
  intros Habsent.
  assert (Hinit : exists msg, __init__ environ = Raise (EnvironmentError msg)).
  { unfold __init__. destruct Habsent as [E|[E|[E|E]]]; rewrite E; simpl;
      rewrite ?orb_true_r; eauto. }
  destruct Hinit as [msg Hinit]. exists msg.
  unfold main, process_lecture_notes. rewrite Hinit. split; reflexivity.
Qed.

(** X18: a refused upload ends the run at its first request: nothing is
    polled or downloaded, no file or directory is written, the error is
    printed after the two opening lines and raised again, and the exit code
    is 1.  No turn of the polling loop is needed for that. *)
Theorem X18_refused_upload_stops_the_run fuel (environ : gmap string string) self args
    (w : World Svc) file :
  __init__ environ = Ok self ->
  files w !! path_parts (args_pdf args) = Some file ->
  status_code (serve (svc w) (clock w) (upload_request self file)).1.2 ≠ 200 ->
  exists (w' : World Svc) e,
    e = Exception ("PDF processing failed: "
                   +:+ text (serve (svc w) (clock w) (upload_request self file)).1.2) /\
    process_lecture_notes
        py_str pbar_refresh PyPDF2 fuel environ (args_pdf args) (args_output args) w
    = Some (Raise e, w',
            [PrintProcessing (args_pdf args); PrintUploading; PrintError e]) /\
    (exists out, main
        py_str pbar_refresh PyPDF2 fuel environ args w = Some (1, w', out, [LogError e])) /\
    log w' = log w ++ [EvRequest (upload_request self file)
                         (serve (svc w) (clock w) (upload_request self file)).1.2] /\
    files w' = files w /\ dirs w' = dirs w.
Proof.
  intros Hinit Hfile Hcode.
  unfold main, process_lecture_notes, lecture_notes_steps. rewrite Hinit.
  rewrite (process_pdf_sends _ _ _ _ Hfile). unfold requests_send.
  destruct (serve (svc w) (clock w) (upload_request self file)) as [[s resp] took].
  simpl in *. rewrite bool_decide_eq_true_2 by exact Hcode.
  eexists. eexists. split; [reflexivity|]. simpl.
  split; [reflexivity|]. split; [eauto|]. repeat split.
Qed.

(** X19: when the polling fails, by an error of the job, a timeout or an
    answer it cannot read, nothing is downloaded: the run raises what the
    polling raised, has sent nothing but the upload and status requests,
    and has written no file and no directory. *)
Theorem X19_failed_job_downloads_nothing fuel (environ : gmap string string) self
    pdf_path output_dir (w w1 w2 : World Svc) file pdf_id e :
  __init__ environ = Ok self ->
  files w !! path_parts pdf_path = Some file ->
  process_pdf self pdf_path w = (Ok pdf_id, w1) ->
  wait_for_processing
      py_str pbar_refresh fuel self (fstring_value py_str pdf_id) w1 = Some (Raise e, w2) ->
  process_lecture_notes py_str pbar_refresh PyPDF2 fuel environ pdf_path output_dir w
  = Some (Raise e, w2, [PrintProcessing pdf_path; PrintUploading; PrintError e]) /\
  (exists events, log w2 = log w ++ events /\ Forall (upload_or_status self file) events) /\
  files w2 = files w /\ dirs w2 = dirs w.
Proof.
  intros Hinit Hfile Hup Hwait.
  split.
  { unfold process_lecture_notes, lecture_notes_steps. rewrite Hinit, Hup, Hwait. reflexivity. }
  destruct (wait_loop_outcome py_str pbar_refresh self _ _ _ _ _ _ _ Hwait)
    as (ev2 & Hlog2 & Hfiles2 & Hdirs2 & Hev2 & _).
  rewrite (process_pdf_sends _ _ _ _ Hfile) in Hup. unfold requests_send in Hup.
  destruct (serve (svc w) (clock w) (upload_request self file)) as [[s resp] took].
  assert (Hw1 : log w1 = log w ++ [EvRequest (upload_request self file) resp] /\
                files w1 = files w /\ dirs w1 = dirs w).
  { case_bool_decide; injection Hup as _ <-; repeat split. }
  destruct Hw1 as (Hlog1 & Hfiles1 & Hdirs1).
  split; [|split; congruence].
  exists (EvRequest (upload_request self file) resp :: ev2).
  split; [rewrite Hlog2, Hlog1, <- app_assoc; reflexivity|].
  constructor; [left; reflexivity|].
  eapply Forall_impl; [exact Hev2|].
  intros [req r| |]; simpl; eauto.
Qed.

Lemma Path_name_output_file dest ts fmt :
  Path_name (output_file dest ts fmt) = "notes_" +:+ ts +:+ "." +:+ fmt.
Proof. unfold Path_name, output_file, joinpath. apply last_last. Qed.

Lemma print_results_in results fmt name :
  In (PrintFile fmt name) (print_results results) ->
  exists path, results !! fmt = Some path /\ name = Path_name path.
Proof.
  unfold print_results. intros Hin. apply in_flat_map in Hin as (f & _ & Hin).
  destruct (results !! f) as [path|] eqn:Hf; [|destruct Hin].
  destruct Hin as [Heq|[]]. injection Heq as -> <-. eauto.
Qed.

Lemma print_results_lines (results : gmap string Path) :
  print_results results
  = omap (fun fmt => (fun path => PrintFile fmt (Path_name path)) <$> results !! fmt)
      ["mmd"; "tex.zip"; "html"].
Proof.
  unfold print_results. rewrite OUTPUT_FORMATS_keys. cbn [flat_map omap list_omap].
  destruct (results !! "mmd"), (results !! "tex.zip"), (results !! "html"); reflexivity.
Qed.

(** X20: what a run that returns has done and shown: the upload named a
    job, the polling saw it completed, [download_results] returned a
    mapping and left the world as it is at the end; the script lists one
    file per entry of that mapping, in the order mmd, tex.zip, html, each
    under the name of a file that is on disk two levels below the output
    directory; the estimate printed last is [calculate_cost] of the page
    count PyPDF2 found in the PDF, a finite amount. *)
Theorem X20_returned_run_is_complete fuel (environ : gmap string string)
    pdf_path output_dir (w w' : World Svc) printed :
  process_lecture_notes py_str pbar_refresh PyPDF2 fuel environ pdf_path output_dir w
  = Some (Ok tt, w', printed) ->
  exists self pdf_id (w1 w2 : World Svc) results count_pages file num_pages estimated_cost
         listed,
    __init__ environ = Ok self /\
    process_pdf self pdf_path w = (Ok pdf_id, w1) /\
    wait_for_processing
        py_str pbar_refresh fuel self (fstring_value py_str pdf_id) w1 = Some (Ok tt, w2) /\
    download_results self (fstring_value py_str pdf_id) (path_parts output_dir) w2
    = (Ok results, w') /\
    PyPDF2 = Ok count_pages /\
    files w' !! path_parts pdf_path = Some file /\
    count_pages file = Ok num_pages /\
    calculate_cost num_pages = Ok estimated_cost /\
    PyFloat.is_finite estimated_cost = true /\
    printed = [PrintProcessing pdf_path; PrintUploading; PrintDownloading;
               PrintComplete; PrintLocation (path_parts output_dir)]
              ++ listed ++ [PrintCost estimated_cost num_pages] /\
    listed
    = omap (fun fmt => (fun path => PrintFile fmt (Path_name path)) <$> results !! fmt)
        ["mmd"; "tex.zip"; "html"] /\
    (forall fmt name,
       In (PrintFile fmt name) listed <->
       exists path, results !! fmt = Some path /\ Path_name path = name) /\
    (forall fmt path, results !! fmt = Some path ->
       parent (parent path) = path_parts output_dir /\ is_Some (files w' !! path)).
Proof.
  unfold process_lecture_notes, lecture_notes_steps. intros Hrun.
  destruct (__init__ environ) as [self|] eqn:Hinit; [|discriminate].
  destruct (process_pdf self pdf_path w) as [[pdf_id|] w1] eqn:Hup; [|discriminate].
  destruct (wait_for_processing py_str pbar_refresh fuel self (fstring_value py_str pdf_id) w1)
    as [[[[]|] w2]|] eqn:Hwait; try discriminate.
  destruct (download_results_over_spec OUTPUT_FORMATS self (fstring_value py_str pdf_id)
              (path_parts output_dir) w2 OUTPUT_FORMATS_NoDup)
    as (bundle & w3 & answers & Hdl & _ & _ & _ & _ & _ & Hent & _).
  unfold download_results in Hrun |- *. rewrite Hdl in Hrun.
  destruct PyPDF2 as [count_pages|] eqn:Hpy; [|discriminate].
  unfold open_rb in Hrun.
  destruct (files w3 !! path_parts pdf_path) as [file|] eqn:Hfile; [|discriminate].
  simpl in Hrun.
  destruct (count_pages file) as [num_pages|] eqn:Hpages; [|discriminate].
  destruct (calculate_cost num_pages) as [estimated_cost|] eqn:Hcost; [|discriminate].
  injection Hrun as <- <-.
  exists self, pdf_id, w1, w2, bundle, count_pages, file, num_pages, estimated_cost,
    (print_results bundle).
  split; [reflexivity|]. split; [exact Hup|]. split; [exact Hwait|].
  split; [exact Hdl|]. split; [reflexivity|]. split; [exact Hfile|].
  split; [exact Hpages|]. split; [exact Hcost|].
  split; [apply (returned_cost_is_finite num_pages), Hcost|].
  split; [reflexivity|]. split; [apply print_results_lines|]. split.
  - intros fmt name. split.
    + intros Hin. apply print_results_in in Hin as (path & Hpath & ->). eauto.
    + intros (path & Hpath & <-). unfold print_results. apply in_flat_map.
      exists fmt. rewrite Hpath. split; [|left; reflexivity].
      destruct (Hent fmt path Hpath) as (i & r & Hi & _).
      apply list_elem_of_In, list_elem_of_lookup. eauto.
  - intros fmt path Hpath.
    destruct (Hent fmt path Hpath) as (i & r & _ & _ & _ & -> & Hfiles).
    split; [|rewrite Hfiles; eauto].
    unfold output_file. rewrite !parent_joinpath. reflexivity.
Qed.

(** X21: the script always ends: with 302 turns of the polling loop at its
    disposal, [main] comes to an exit code, 0 with nothing logged or 1 with
    the error logged, whatever the environment, the files and the service
    are. *)
Theorem X21_script_always_exits fuel (environ : gmap string string) args (w : World Svc) :
  (301 < fuel)%nat ->
  exists code (w' : World Svc) out logged,
    main py_str pbar_refresh PyPDF2 fuel environ args w = Some (code, w', out, logged) /\
    ((code = 0 /\ logged = []) \/ (code = 1 /\ exists e, logged = [LogError e])).
Proof.
  intros Hfuel. unfold main, process_lecture_notes, lecture_notes_steps.
  destruct (__init__ environ) as [self|e]; [|eexists _, _, _, _; split; [reflexivity|eauto]].
  destruct (process_pdf self (args_pdf args) w) as [[pdf_id|e] w1];
    [|eexists _, _, _, _; split; [reflexivity|eauto]].
  destruct (wait_loop_ends py_str pbar_refresh self (fstring_value py_str pdf_id) (datetime_now w1)
              301 false w1) as (r & w2 & events & Hrun & _).
  { unfold datetime_now. rewrite Z.sub_diag. reflexivity. }
  unfold wait_for_processing. rewrite (Hrun fuel Hfuel).
  destruct r as [[]|e]; [|eexists _, _, _, _; split; [reflexivity|eauto]].
  destruct (download_results _ _ _ w2) as [[results|e] w3];
    [|eexists _, _, _, _; split; [reflexivity|eauto]].
  destruct PyPDF2 as [count_pages|e]; [|eexists _, _, _, _; split; [reflexivity|eauto]].
  destruct (result_bind (open_rb (args_pdf args) w3) count_pages) as [num_pages|e];
    [|eexists _, _, _, _; split; [reflexivity|eauto]].
  destruct (calculate_cost num_pages) as [cost|e];
    eexists _, _, _, _; split; try reflexivity; eauto.
Qed.

End ScriptFacts.

(** ** The further properties at work in concrete worlds *)

Lemma X7_polling_account_witness :
  exists events,
    log (Scenes.polled 2 0 10).2 = log (Mock.world 0%nat ∅) ++ events /\
    Forall (polling_event Mock.processor "job") events /\
    count_requests events
    = (if is_timeout (Scenes.polled 2 0 10).1 then count_sleeps events
       else S (count_sleeps events)) /\
    (clock (Mock.world 0%nat ∅)
     + Z.of_nat (count_sleeps events) * (POLLING_INTERVAL * datetime.US_PER_SECOND)
     <= clock (Scenes.polled 2 0 10).2)%Z /\
    files (Scenes.polled 2 0 10).2 = files (Mock.world 0%nat ∅) /\
    dirs (Scenes.polled 2 0 10).2 = dirs (Mock.world 0%nat ∅).
Proof.
  apply (X7_polling_account (Service0 := Scenes.completes_after 2 0) Mock.str_of Mock.tqdm_refresh
           Mock.processor "job" (Mock.world 0%nat ∅) 10).
  vm_compute. reflexivity.
Defined.

Lemma X8_polling_outcomes_are_grounded_witness :
  (Scenes.polled 2 0 10).1 = Ok tt /\
  exists events resp doc,
    log (Scenes.polled 2 0 10).2 = log (Mock.world 0%nat ∅) ++ events /\
    In (EvRequest (status_request Mock.processor "job") resp) events /\
    json_body resp = Some doc /\ subscript doc "status" = Ok (JStr "completed").
Proof.
  assert (Hok : (Scenes.polled 2 0 10).1 = Ok tt) by (vm_compute; reflexivity).
  split; [exact Hok|].
  destruct (X8_polling_outcomes_are_grounded (Service0 := Scenes.completes_after 2 0)
              Mock.str_of Mock.tqdm_refresh Mock.processor "job" (Mock.world 0%nat ∅) 10
              (Scenes.polled 2 0 10).1 (Scenes.polled 2 0 10).2) as [Hgrounded _].
  - vm_compute. reflexivity.
  - apply Hgrounded, Hok.
Defined.

Lemma X9_progress_bar_discipline_witness :
  (exists events,
     log (Scenes.polled 2 0 10).2 = events /\
     (Scenes.polled 2 0 10).1 = Ok tt /\
     count_running events = 2%nat /\
     count_opens events = 1%nat /\ count_closes events = 1%nat) /\
  (exists events,
     log (Scenes.undrawn 1).2 = events /\
     (Scenes.undrawn 1).1
     = Raise (TypeError "'>=' not supported between instances of 'NoneType' and 'float'") /\
     count_running events = 1%nat /\ count_sleeps events = 0%nat /\
     count_opens events = 1%nat /\ count_closes events = 0%nat).
Proof.
  split.
  - destruct (X9_progress_bar_discipline (Service0 := Scenes.completes_after 2 0)
      Mock.str_of Mock.tqdm_refresh
                Mock.processor "job" (Mock.world 0%nat ∅) 10
                (Scenes.polled 2 0 10).1 (Scenes.polled 2 0 10).2)
      as (events & Hlog & Hop & Hcl); [vm_compute; reflexivity|].
    assert (Hev : events = log (Scenes.polled 2 0 10).2) by (symmetry; exact Hlog).
    assert (Hok : (Scenes.polled 2 0 10).1 = Ok tt) by (vm_compute; reflexivity).
    assert (Hbusy : count_running events = 2%nat) by (rewrite Hev; vm_compute; reflexivity).
    rewrite Hok in Hcl. rewrite Hbusy in Hop. simpl in Hop, Hcl.
    exists events. split; [exact Hlog|]. split; [exact Hok|]. split; [exact Hbusy|].
    split; [exact Hop|]. rewrite Hcl. exact Hop.
  - destruct (X9_progress_bar_discipline (Service0 := Mock.unreported) Mock.str_of Mock.tqdm_refresh
                Mock.processor "job" (Mock.world tt ∅) 1
                (Scenes.undrawn 1).1 (Scenes.undrawn 1).2)
      as (events & Hlog & Hop & Hcl); [vm_compute; reflexivity|].
    assert (Hev : events = log (Scenes.undrawn 1).2) by (symmetry; exact Hlog).
    assert (Hr : (Scenes.undrawn 1).1
                 = Raise (TypeError
                     "'>=' not supported between instances of 'NoneType' and 'float'"))
      by (vm_compute; reflexivity).
    assert (Hbusy : count_running events = 1%nat) by (rewrite Hev; vm_compute; reflexivity).
    assert (Hsl : count_sleeps events = 0%nat) by (rewrite Hev; vm_compute; reflexivity).
    rewrite Hr in Hcl. rewrite Hbusy in Hop. simpl in Hop, Hcl.
    exists events. split; [exact Hlog|]. split; [exact Hr|]. split; [exact Hbusy|].
    split; [exact Hsl|]. split; [exact Hop|exact Hcl].
Defined.

(** Two pending polls, then completed: three requests, two sleeps, the bar
    opened once and closed once. *)
Example completed_at_the_third_poll :
  (Scenes.polled 2 0 10).1 = Ok tt /\
  count_requests (log (Scenes.polled 2 0 10).2) = 3%nat /\
  count_sleeps (log (Scenes.polled 2 0 10).2) = 2%nat /\
  count_opens (log (Scenes.polled 2 0 10).2) = 1%nat /\
  count_closes (log (Scenes.polled 2 0 10).2) = 1%nat.
Proof. repeat split; vm_compute; reflexivity. Qed.

Lemma X10_unreadable_first_answer_witness :
  (exists w' : World unit,
     wait_for_processing (Service0 := Mock.without_archive) Mock.str_of Mock.tqdm_refresh 1
       Mock.processor "job" (Mock.world tt ∅) = Some (Raise JSONDecodeError, w')) /\
  (exists w' : World unit,
     wait_for_processing (Service0 := Mock.rejecting) Mock.str_of Mock.tqdm_refresh 1
       Mock.processor "job" (Mock.world tt ∅) = Some (Raise (KeyError "status"), w')).
Proof.
  split.
  - destruct (proj1 (X10_unreadable_first_answer (Service0 := Mock.without_archive)
                       Mock.str_of Mock.tqdm_refresh Mock.processor "job" (Mock.world tt ∅) 0))
      as (w' & Hrun & _); [reflexivity|]. exists w'. exact Hrun.
  - destruct (proj2 (X10_unreadable_first_answer (Service0 := Mock.rejecting)
                       Mock.str_of Mock.tqdm_refresh Mock.processor "job" (Mock.world tt ∅) 0)
                [("error", JStr "Invalid credentials")])
      as (w' & Hrun & _); [reflexivity|reflexivity|]. exists w'. exact Hrun.
Defined.

Lemma X11_credentials_reach_requests_witness :
  exists id key,
    Mock.environ !! "MATHPIX_APP_ID" = Some id /\ id <> "" /\
    Mock.environ !! "MATHPIX_APP_KEY" = Some key /\ key <> "" /\
    (forall file,
       req_headers (upload_request Mock.processor file) = [("app_id", id); ("app_key", key)]) /\
    (forall pdf_id,
       req_headers (status_request Mock.processor pdf_id)
       = [("app_id", id); ("app_key", key); ("Content-Type", "application/json")]) /\
    (forall pdf_id fmt,
       req_headers (get_request (API_ENDPOINTS.download pdf_id fmt) (headers Mock.processor))
       = [("app_id", id); ("app_key", key); ("Content-Type", "application/json")]).
Proof. apply X11_credentials_reach_requests. vm_compute. reflexivity. Defined.

Lemma X12_upload_sends_one_request_witness :
  process_pdf (Service0 := Mock.accepting) Mock.processor "missing.pdf" Mock.with_pdf
  = (Raise (FileNotFoundError "missing.pdf"), Mock.with_pdf) /\
  exists resp,
    log (process_pdf (Service0 := Mock.accepting) Mock.processor "notes.pdf" Mock.with_pdf).2
    = log Mock.with_pdf ++ [EvRequest (upload_request Mock.processor "%PDF-1.7") resp].
Proof.
  split.
  - apply (proj1 (X12_upload_sends_one_request (Service0 := Mock.accepting)
                    Mock.processor "missing.pdf" Mock.with_pdf)).
    vm_compute. reflexivity.
  - destruct (proj2 (X12_upload_sends_one_request (Service0 := Mock.accepting)
                       Mock.processor "notes.pdf" Mock.with_pdf) "%PDF-1.7")
      as (resp & Hlog & _); [vm_compute; reflexivity|]. exists resp. exact Hlog.
Defined.

Lemma X13_upload_needs_a_job_id_witness :
  (process_pdf (Service0 := Mock.without_archive) Mock.processor "notes.pdf" Mock.with_pdf).1
  = Raise JSONDecodeError /\
  (process_pdf (Service0 := Mock.stuck_at "processing" 0) Mock.processor "notes.pdf"
     Mock.with_pdf).1 = Raise (KeyError "pdf_id") /\
  exists msg,
    (process_pdf (Service0 := Stage.listing) Mock.processor "notes.pdf" Mock.with_pdf).1
    = Raise (TypeError msg).
Proof.
  split; [|split].
  - destruct (X13_upload_needs_a_job_id (Service0 := Mock.without_archive)
                Mock.processor "notes.pdf" Mock.with_pdf "%PDF-1.7") as (Hraw & _).
    + vm_compute. reflexivity.
    + reflexivity.
    + apply Hraw. reflexivity.
  - destruct (X13_upload_needs_a_job_id (Service0 := Mock.stuck_at "processing" 0)
                Mock.processor "notes.pdf" Mock.with_pdf "%PDF-1.7") as (_ & Hkey & _).
    + vm_compute. reflexivity.
    + reflexivity.
    + apply (Hkey [("status", JStr "processing"); ("percent_done", JInt 0)]); reflexivity.
  - destruct (X13_upload_needs_a_job_id (Service0 := Stage.listing)
                Mock.processor "notes.pdf" Mock.with_pdf "%PDF-1.7") as (_ & _ & Htype).
    + vm_compute. reflexivity.
    + reflexivity.
    + apply (Htype (JArr [])); [reflexivity|]. intros fields. discriminate.
Defined.

Lemma returned_bundle {Svc : Type} (run : result (gmap string Path) * World Svc) :
  is_ok run.1 = true -> run = (Ok (Mock.bundle_of run), run.2).
Proof.
  destruct run as [[bundle|e] w]; [reflexivity|discriminate].
Defined.

Lemma X16_same_second_runs_collide_witness :
  files (Mock.second_run 1000).2
    !! output_file ["processed_notes"] "20240101_120000" "html"
  = Some "second run".
Proof.
  destruct (X16_same_second_runs_collide (Service0 := Mock.counting 1000)
              Mock.processor "job" "job" ["processed_notes"]
              (Mock.world 0%nat ∅) (Mock.first_run 1000).2 (Mock.first_run 1000).2
              (Mock.second_run 1000).2
              (Mock.bundle_of (Mock.first_run 1000)) (Mock.bundle_of (Mock.second_run 1000)))
    with (fmt := "html")
         (p1 := output_file ["processed_notes"] "20240101_120000" "html")
         (p2 := output_file ["processed_notes"] "20240101_120000" "html")
    as (_ & events & r & _ & _ & _ & Hfile).
  - apply (returned_bundle (Mock.first_run 1000)). vm_compute. reflexivity.
  - apply (returned_bundle (Mock.second_run 1000)). vm_compute. reflexivity.
  - vm_compute. reflexivity.
  - vm_compute. reflexivity.
  - vm_compute. reflexivity.
  - vm_compute. reflexivity.
Defined.

Lemma X17_no_credentials_no_run_witness :
  exists msg,
    process_lecture_notes (Service0 := Stage.smooth)
        Mock.str_of Mock.tqdm_refresh Stage.twelve_pages 302 ∅
      "notes.pdf" "processed_notes" Mock.with_pdf
    = Some (Raise (EnvironmentError msg), Mock.with_pdf, []) /\
    main (Service0 := Stage.smooth)
        Mock.str_of Mock.tqdm_refresh Stage.twelve_pages 302 ∅ Stage.args
      Mock.with_pdf
    = Some (1%Z, Mock.with_pdf, [], [LogError (EnvironmentError msg)]).
Proof.
  apply (X17_no_credentials_no_run (Service0 := Stage.smooth)
      Mock.str_of Mock.tqdm_refresh Stage.twelve_pages
           302 ∅ Stage.args Mock.with_pdf).
  left. reflexivity.
Defined.

Lemma X18_refused_upload_stops_the_run_witness :
  exists (w' : World unit) out,
    main (Service0 := Mock.rejecting)
        Mock.str_of Mock.tqdm_refresh Stage.twelve_pages 0 Mock.environ Stage.args
      Mock.with_pdf
    = Some (1%Z, w', out,
            [LogError (Exception "PDF processing failed: Invalid credentials")]) /\
    count_requests (log w') = 1%nat /\ dirs w' = ∅.
Proof.
  destruct (X18_refused_upload_stops_the_run (Service0 := Mock.rejecting)
      Mock.str_of Mock.tqdm_refresh
              Stage.twelve_pages 0 Mock.environ Mock.processor Stage.args Mock.with_pdf
              "%PDF-1.7")
    as (w' & e & -> & _ & (out & Hmain) & Hlog & _ & Hdirs).
  - vm_compute. reflexivity.
  - vm_compute. reflexivity.
  - vm_compute. discriminate.
  - exists w', out. split; [exact Hmain|]. rewrite Hlog, Hdirs. split; reflexivity.
Defined.

Lemma X19_failed_job_downloads_nothing_witness :
  (exists e,
     process_lecture_notes (Service0 := Stage.failing_job)
         Mock.str_of Mock.tqdm_refresh Stage.twelve_pages 5
       Mock.environ "notes.pdf" "processed_notes" Mock.with_pdf
     = Some (Raise e, Stage.polled_error.2,
             [PrintProcessing "notes.pdf"; PrintUploading; PrintError e])) /\
  files Stage.polled_error.2 = files Mock.with_pdf /\
  dirs Stage.polled_error.2 = dirs Mock.with_pdf.
Proof.
  destruct (X19_failed_job_downloads_nothing (Service0 := Stage.failing_job)
      Mock.str_of Mock.tqdm_refresh
              Stage.twelve_pages 5 Mock.environ Mock.processor "notes.pdf" "processed_notes"
              Mock.with_pdf Stage.uploaded.2 Stage.polled_error.2 "%PDF-1.7" (JStr "job")
              (Exception "Processing error: status error"))
    as (Hrun & _ & Hfiles & Hdirs).
  - vm_compute. reflexivity.
  - vm_compute. reflexivity.
  - vm_compute. reflexivity.
  - vm_compute. reflexivity.
  - split; [eauto|]. split; assumption.
Defined.

(** A run that goes well sends five requests and ends with the estimate
    for twelve pages: the product 12 * 0.025, which is the double next to
    0.3 (0.30000000000000004), not 0.3 itself. *)
Example smooth_run_prints_the_estimate :
  Stage.whole_run.1.1 = Ok tt /\
  List.last Stage.whole_run.2 PrintStats
  = PrintCost (S754_finite false 5404319552844596 (-54)) 12 /\
  PyFloat.literal 3 1 = S754_finite false 5404319552844595 (-54) /\
  count_requests (log Stage.whole_run.1.2) = 5%nat.
Proof. repeat split; vm_compute; reflexivity. Qed.

Lemma returned_outcome {W P : Type} (o : option (result unit * W * P)) d :
  has_returned o = true -> o = Some (Ok tt, (default d o).1.2, (default d o).2).
Proof.
  destruct o as [[[[[]|e] w] out]|]; [reflexivity|discriminate|discriminate].
Defined.

Lemma returned_value {A W : Type} (run : result A * W) (a : A) :
  run.1 = Ok a -> run = (Ok a, run.2).
Proof. destruct run as [r w]. simpl. intros ->. reflexivity. Defined.

Lemma returned_same {A W : Type} (a b : A) (w w' : W) : (Ok a, w) = (Ok b, w') -> a = b.
Proof. intros Heq. injection Heq as Heq _. exact Heq. Defined.

Lemma returned_poll {W : Type} (o : option (result unit * W)) d :
  is_ok (default d o).1 = true -> is_Some o -> o = Some (Ok tt, (default d o).2).
Proof.
  intros Hok [[r w] ->]. simpl in *. destruct r as [[]|e]; [reflexivity|discriminate].
Defined.

Lemma X20_returned_run_is_complete_witness :
  exists estimated_cost,
    calculate_cost 12 = Ok estimated_cost /\
    PyFloat.is_finite estimated_cost = true /\
    Stage.whole_run.2
    = [PrintProcessing "notes.pdf"; PrintUploading; PrintDownloading;
       PrintComplete; PrintLocation ["processed_notes"];
       PrintFile "mmd" "notes_20240101_120000.mmd";
       PrintFile "tex.zip" "notes_20240101_120000.tex.zip";
       PrintFile "html" "notes_20240101_120000.html";
       PrintCost estimated_cost 12].
Proof.
  unfold Stage.whole_run.
  set (o := process_lecture_notes (Service0 := Stage.smooth)
      Mock.str_of Mock.tqdm_refresh Stage.twelve_pages 5
              Mock.environ "notes.pdf" "processed_notes" Mock.with_pdf).
  set (d := (Raise JSONDecodeError, Mock.with_pdf, []) : result unit * World unit * list Printed).
  assert (Hreturned : has_returned o = true) by (vm_compute; reflexivity).
  destruct (X20_returned_run_is_complete (Service0 := Stage.smooth) Mock.str_of Mock.tqdm_refresh
              Stage.twelve_pages 5 Mock.environ "notes.pdf" "processed_notes"
              Mock.with_pdf (default d o).1.2 (default d o).2
              (returned_outcome o d Hreturned))
    as (self & pdf_id & w1 & w2 & results & count_pages & file & num_pages & cost & listed
        & Hinit & Hup & Hwait & Hdl & Hpy & _ & Hpages & Hcost & Hfin & Hprinted & Hlisted & _).
  assert (Hself : __init__ Mock.environ = Ok Mock.processor) by (vm_compute; reflexivity).
  rewrite Hself in Hinit. injection Hinit as <-.
  assert (Hjob : Stage.smooth_uploaded.1 = Ok (JStr "job")) by (vm_compute; reflexivity).
  apply returned_value in Hjob. unfold Stage.smooth_uploaded at 1 in Hjob.
  rewrite Hjob in Hup. injection Hup as <- <-.
  assert (Hdone : Stage.smooth_polled
                  = Some (Ok tt, (default (Ok tt, Stage.smooth_uploaded.2)
                                    Stage.smooth_polled).2)).
  { apply returned_poll; [vm_compute; reflexivity|].
    apply (bool_decide_unpack _). vm_compute. exact I. }
  unfold Stage.smooth_polled at 1 in Hdone.
  change (fstring_value Mock.str_of (JStr "job")) with "job" in Hwait, Hdl.
  rewrite Hdone in Hwait. injection Hwait as <-.
  assert (Hfiles : is_ok Stage.smooth_downloaded.1 = true) by (vm_compute; reflexivity).
  apply returned_bundle in Hfiles. unfold Stage.smooth_downloaded at 1 in Hfiles.
  change (path_parts "processed_notes") with ["processed_notes"] in Hdl, Hprinted.
  rewrite Hfiles in Hdl. apply returned_same in Hdl as Hres.
  assert (Hlines :
            omap (fun fmt => (fun path => PrintFile fmt (Path_name path))
                               <$> Mock.bundle_of Stage.smooth_downloaded !! fmt)
              ["mmd"; "tex.zip"; "html"]
            = [PrintFile "mmd" "notes_20240101_120000.mmd";
               PrintFile "tex.zip" "notes_20240101_120000.tex.zip";
               PrintFile "html" "notes_20240101_120000.html"])
    by (vm_compute; reflexivity).
  rewrite <- Hres, Hlines in Hlisted.
  injection Hpy as <-. injection Hpages as <-.
  exists cost. split; [exact Hcost|]. split; [exact Hfin|].
  rewrite Hprinted, Hlisted. reflexivity.
Defined.

Lemma X21_script_always_exits_witness :
  exists code (w' : World unit) out logged,
    main (Service0 := Stage.smooth)
        Mock.str_of Mock.tqdm_refresh Stage.twelve_pages 302 Mock.environ
      Stage.args Mock.with_pdf = Some (code, w', out, logged) /\
    ((code = 0%Z /\ logged = []) \/ (code = 1%Z /\ exists e, logged = [LogError e])).
Proof.
  apply (X21_script_always_exits (Service0 := Stage.smooth)
      Mock.str_of Mock.tqdm_refresh Stage.twelve_pages
           302 Mock.environ Stage.args Mock.with_pdf).
  lia.
Defined.
